(* Verification of the scoring-and-alerting core of the network anomaly
   detection system: AnomalyDetector (scripts/predicts.py) and AlertAgent
   (scripts/alert_agent.py). *)

From Stdlib Require Import String Ascii List ZArith QArith Qabs Bool Lia Lqa.
From Stdlib Require Import Permutation Sorted.
Set Warnings "-register-all".
Set Warnings "-notation-overridden".
Open Scope nat_scope.
Open Scope string_scope.
Import ListNotations.

(* ------------------------------------------------------------------ *)
(** * Python values *)
Module Py.

(** A Python float: a finite value (kept as the rational it denotes; the
    rounding to a binary64 mantissa is not modelled), an infinity, or NaN. *)
Inductive pyfloat : Type :=
| Fin (q : Q)
| Inf (negative : bool)
| NaN.

(** The values a record field (or a JSON document) can hold.  [POpaque]
    stands for an object that has neither [__float__] nor a JSON encoding,
    e.g. a [set] or a bare [object()]; its argument is its type name. *)
Inductive pyval : Type :=
| PNone
| PBool (b : bool)
| PInt (z : Z)
| PFloat (f : pyfloat)
| PStr (s : string)
| PList (l : list pyval)
| PDict (kv : list (string * pyval))
| POpaque (tyname : string).

Inductive exc : Type :=
| ValueError
| TypeError
| OverflowError.

(** A computation that returns a value or raises. *)
Inductive res (A : Type) : Type :=
| Ok (a : A)
| Raise (e : exc).
Arguments Ok {A} a.
Arguments Raise {A} e.

Definition char (n : nat) : string := String (ascii_of_nat n) EmptyString.
Definition nl : string := char 10.

(** Decimal rendering of a natural number ([int.__repr__]). *)
Fixpoint digits_rev (fuel : nat) (n : N) : string :=
  match fuel with
  | O => EmptyString
  | S f =>
      let d := N.modulo n 10 in
      let r := N.div n 10 in
      let c := String (ascii_of_N (48 + d)) EmptyString in
      match r with
      | N0 => c
      | _ => digits_rev f r ++ c
      end
  end.

Definition N_repr (n : N) : string := digits_rev (S (N.size_nat n)) n.

Definition Z_repr (z : Z) : string :=
  match z with
  | Z0 => "0"
  | Zpos p => N_repr (Npos p)
  | Zneg p => "-" ++ N_repr (Npos p)
  end.

End Py.
Import Py.

(* ------------------------------------------------------------------ *)
(** * [str.strip], [str.split()] and [str.split('\n')] *)
Module PyStr.

(** [str.isspace] on one character, read as the code point of its byte:
    tab, line feed, vertical tab, form feed, carriage return, the
    separators 0x1c-0x1f, space, NEL (0x85) and no-break space (0xa0). *)
Definition py_isspace (c : ascii) : bool :=
  let n := nat_of_ascii c in
  (Nat.leb 9 n && Nat.leb n 13) || (Nat.leb 28 n && Nat.leb n 32)
  || Nat.eqb n 133 || Nat.eqb n 160.

Fixpoint str_lstrip (s : string) : string :=
  match s with
  | String c r => if py_isspace c then str_lstrip r else s
  | EmptyString => EmptyString
  end.

Fixpoint str_rstrip (s : string) : string :=
  match s with
  | String c r =>
      match str_rstrip r with
      | EmptyString => if py_isspace c then EmptyString else String c EmptyString
      | r' => String c r'
      end
  | EmptyString => EmptyString
  end.

(** [s.strip()] *)
Definition str_strip (s : string) : string := str_rstrip (str_lstrip s).

(** The pieces of [s] between the characters [is_sep] accepts, empty
    pieces included. *)
Fixpoint split_on (is_sep : ascii -> bool) (s : string) : list string :=
  match s with
  | EmptyString => [EmptyString]
  | String c r =>
      if is_sep c then EmptyString :: split_on is_sep r
      else match split_on is_sep r with
           | x :: xs => String c x :: xs
           | [] => [String c EmptyString]
           end
  end.

Definition is_newline (c : ascii) : bool := Nat.eqb (nat_of_ascii c) 10.

(** [s.split('\n')] *)
Definition split_lines (s : string) : list string := split_on is_newline s.

(** [s.split()]: runs of whitespace separate the words, and no word is
    empty. *)
Definition split_words (s : string) : list string :=
  List.filter (fun w => negb (String.eqb w EmptyString)) (split_on py_isspace s).

End PyStr.
Import PyStr.

(* ------------------------------------------------------------------ *)
(** * Python's [float()] builtin, on the values above *)
Module PyFloat.

(** Largest magnitude an [int] may have before [float(int)] raises
    [OverflowError]: values at or above the midpoint between the largest
    finite double (2^1024 - 2^971) and 2^1024 round up to 2^1024. *)
Definition overflow_bound : Z := 2 ^ 1024 - 2 ^ 970.

Definition Qabs_lt (q : Q) (b : Z) : bool :=
  Qle_bool (Qabs q) (inject_Z b) && negb (Qeq_bool (Qabs q) (inject_Z b)).

(** Rounding a parsed decimal string to a float: out of range gives an
    infinity (as [float("1e400")] does); gradual underflow is not
    modelled. *)
Definition round_decimal (q : Q) : pyfloat :=
  if Qabs_lt q overflow_bound then Fin (Qred q)
  else Inf (Qle_bool q 0 && negb (Qeq_bool q 0)).

(** The whitespace [float()] strips.  CPython first maps every non-ASCII
    Unicode space to an ASCII space, then strips the ASCII spaces only:
    tab, line feed, vertical tab, form feed, carriage return and space,
    plus NEL (0x85) and no-break space (0xa0) through the mapping.  The
    separators 0x1c-0x1f, which [str.isspace] accepts, are ASCII and are
    not stripped. *)
Definition is_space (c : ascii) : bool :=
  match nat_of_ascii c with
  | 32 | 9 | 10 | 11 | 12 | 13 | 133 | 160 => true
  | _ => false
  end.

Fixpoint lstrip (s : string) : string :=
  match s with
  | String c r => if is_space c then lstrip r else s
  | EmptyString => s
  end.

Fixpoint rev_string (s : string) (acc : string) : string :=
  match s with
  | String c r => rev_string r (String c acc)
  | EmptyString => acc
  end.

Definition strip (s : string) : string :=
  rev_string (lstrip (rev_string (lstrip s) EmptyString)) EmptyString.

Definition lower_ascii (c : ascii) : ascii :=
  let n := nat_of_ascii c in
  if Nat.leb 65 n && Nat.leb n 90 then ascii_of_nat (n + 32) else c.

Fixpoint lower (s : string) : string :=
  match s with
  | String c r => String (lower_ascii c) (lower r)
  | EmptyString => EmptyString
  end.

Definition digit_of (c : ascii) : option Z :=
  let n := nat_of_ascii c in
  if Nat.leb 48 n && Nat.leb n 57 then Some (Z.of_nat (n - 48)) else None.

(** Leading decimal digits: (value, count, rest). *)
Fixpoint take_digits (s : string) (v : Z) (k : nat) : Z * nat * string :=
  match s with
  | String c r =>
      match digit_of c with
      | Some d => take_digits r (10 * v + d) (S k)
      | None => (v, k, s)
      end
  | EmptyString => (v, k, s)
  end.

Definition take_sign (s : string) : bool * string :=
  match s with
  | String "-"%char r => (true, r)
  | String "+"%char r => (false, r)
  | _ => (false, s)
  end.

(** The unsigned part of a float literal: digits, an optional fraction and
    an optional exponent; at least one mantissa digit, nothing left over. *)
Definition parse_unsigned (s : string) : option Q :=
  let '(ip, ni, r1) := take_digits s 0 O in
  let '(fp, nf, r2) :=
    match r1 with
    | String "."%char r => take_digits r ip O
    | _ => (ip, O, r1)
    end in
  if (ni + nf =? 0)%nat then None else
  let mant := fp in
  let '(ex, ok) :=
    match r2 with
    | EmptyString => (0%Z, true)
    | String c r =>
        if (nat_of_ascii c =? 101)%nat || (nat_of_ascii c =? 69)%nat then
          let '(eneg, r') := take_sign r in
          let '(ev, ne, r'') := take_digits r' 0 O in
          match ne, r'' with
          | S _, EmptyString => ((if eneg then - ev else ev)%Z, true)
          | _, _ => (0%Z, false)
          end
        else (0%Z, false)
    end in
  if negb ok then None else
  let e := (ex - Z.of_nat nf)%Z in
  if (0 <=? e)%Z then Some (inject_Z (mant * 10 ^ e))
  else Some (Qmake mant (Z.to_pos (10 ^ (- e)))).

Definition is_digit (c : ascii) : bool :=
  match digit_of c with Some _ => true | None => false end.

(** [_Py_string_to_number_with_underscores]: an underscore is allowed only
    right after a digit, the character after it must be a digit, and the
    text may not end with one; the underscores are then dropped.  [prev]
    is the previous character, NUL at the start as in the C code. *)
Fixpoint drop_underscores (prev : ascii) (s : string) : option string :=
  match s with
  | EmptyString => if Ascii.eqb prev "_"%char then None else Some EmptyString
  | String c r =>
      if Ascii.eqb c "_"%char then
        if is_digit prev then drop_underscores c r else None
      else if Ascii.eqb prev "_"%char && negb (is_digit c) then None
      else option_map (String c) (drop_underscores c r)
  end.

(** [float(str)], for a text whose code points are all below 256 (one
    [ascii] per code point): surrounding whitespace stripped, digit
    separators checked and removed, an optional sign, then [inf],
    [infinity], [nan] (any case) or a decimal literal.  No code point
    below 256 other than 0-9 is a Unicode decimal digit, so the ASCII
    digits are the only ones. *)
Definition float_of_string (s0 : string) : option pyfloat :=
  match drop_underscores "000"%char (strip s0) with
  | None => None
  | Some s1 =>
      let '(neg, body) := take_sign s1 in
      let lb := lower body in
      if String.eqb lb "inf" || String.eqb lb "infinity" then Some (Inf neg)
      else if String.eqb lb "nan" then Some NaN
      else match parse_unsigned body with
           | Some q => Some (round_decimal (if neg then Qopp q else q))
           | None => None
           end
  end.

(** [float(value)]. *)
Definition py_float (v : pyval) : res pyfloat :=
  match v with
  | PFloat f => Ok f
  | PBool b => Ok (Fin (if b then 1 else 0))
  | PInt z =>
      if (Z.abs z <? overflow_bound)%Z then Ok (Fin (inject_Z z))
      else Raise OverflowError
  | PStr s =>
      match float_of_string s with
      | Some f => Ok f
      | None => Raise ValueError
      end
  | PNone | PList _ | PDict _ | POpaque _ => Raise TypeError
  end.

End PyFloat.
Import PyFloat.

(* ------------------------------------------------------------------ *)
(** * Python dicts: association lists in insertion order *)
Module Dict.
Section Ops.
Context {V : Type}.

Definition dict := list (string * V).

(** [d.get(k)] *)
Fixpoint get (d : dict) (k : string) : option V :=
  match d with
  | [] => None
  | (k', v) :: r => if String.eqb k k' then Some v else get r k
  end.

(** [d[k] = v]: an existing key keeps its position, a new key goes last. *)
Fixpoint set (d : dict) (k : string) (v : V) : dict :=
  match d with
  | [] => [(k, v)]
  | (k', v') :: r => if String.eqb k k' then (k', v) :: r else (k', v') :: set r k v
  end.

(** [del d[k]] *)
Fixpoint del (d : dict) (k : string) : dict :=
  match d with
  | [] => []
  | (k', v') :: r => if String.eqb k k' then r else (k', v') :: del r k
  end.

Definition keys (d : dict) : list string := map fst d.

End Ops.
End Dict.
Arguments Dict.dict V : clear implicits.

(* ------------------------------------------------------------------ *)
(** * AnomalyDetector.preprocess_data (scripts/predicts.py) *)
Module Predicts.

(** The feature schema of [AnomalyDetector.__init__]. *)
Definition feature_names : list string :=
  [ "Destination Port"; "Flow Duration"; "Total Fwd Packets";
    "Total Length of Fwd Packets"; "Fwd Packet Length Max"; "Fwd Packet Length Min";
    "Fwd Packet Length Mean"; "Fwd Packet Length Std"; "Bwd Packet Length Max";
    "Bwd Packet Length Min"; "Bwd Packet Length Mean"; "Bwd Packet Length Std";
    "Flow Bytes/s"; "Flow Packets/s"; "Flow IAT Mean"; "Flow IAT Std";
    "Flow IAT Max"; "Flow IAT Min"; "Fwd IAT Total"; "Fwd IAT Mean";
    "Fwd IAT Std"; "Fwd IAT Max"; "Fwd IAT Min"; "Bwd IAT Total";
    "Bwd IAT Mean"; "Bwd IAT Std"; "Bwd IAT Max"; "Bwd IAT Min";
    "Fwd Header Length"; "Bwd Header Length"; "Fwd Packets/s";
    "Bwd Packets/s"; "Min Packet Length"; "Max Packet Length";
    "Packet Length Mean"; "Packet Length Std"; "Packet Length Variance";
    "FIN Flag Count"; "PSH Flag Count"; "ACK Flag Count";
    "Average Packet Size"; "Subflow Fwd Bytes"; "Init_Win_bytes_forward";
    "Init_Win_bytes_backward"; "act_data_pkt_fwd"; "min_seg_size_forward";
    "Active Mean"; "Active Max"; "Active Min"; "Idle Mean"; "Idle Max"; "Idle Min" ].

(** The two warnings [preprocess_data] prints. *)
Inductive warning : Type :=
| CouldNotConvert (key : string)   (* "Could not convert value for {key} to float, using 0.0" *)
| IgnoringUnknown (key : string).  (* "Ignoring unknown feature: {key}" *)

(** [{feature: 0.0 for feature in self.feature_names}] *)
Definition zero_dict (schema : list string) : Dict.dict pyfloat :=
  fold_left (fun d f => Dict.set d f (Fin 0)) schema [].

(** The loop over [data.items()]: [float(value)] with [ValueError] and
    [TypeError] caught; any other exception leaves the loop. *)
Fixpoint update_loop (items : list (string * pyval))
    (pd : Dict.dict pyfloat) (ws : list warning)
    : res (Dict.dict pyfloat * list warning) :=
  match items with
  | [] => Ok (pd, ws)
  | (key, value) :: rest =>
      match Dict.get pd key with
      | Some _ =>
          match py_float value with
          | Ok f => update_loop rest (Dict.set pd key f) ws
          | Raise ValueError | Raise TypeError =>
              update_loop rest (Dict.set pd key (Fin 0)) (ws ++ [CouldNotConvert key])%list
          | Raise e => Raise e
          end
      | None => update_loop rest pd (ws ++ [IgnoringUnknown key])%list
      end
  end.

(** [df = pd.DataFrame([processed_data]); df = df[self.feature_names]]:
    the single row, read column by column in schema order. *)
Definition select_columns (pd : Dict.dict pyfloat) (schema : list string) : list pyfloat :=
  map (fun f => match Dict.get pd f with Some x => x | None => Fin 0 end) schema.

(** Lines 98-116 of [preprocess_data]: the unscaled row and the warnings. *)
Definition vectorize (schema : list string) (data : list (string * pyval))
    : res (list pyfloat * list warning) :=
  match update_loop data (zero_dict schema) [] with
  | Ok (pd, ws) => Ok (select_columns pd schema, ws)
  | Raise e => Raise e
  end.

(** [preprocess_data]: the row, then [scaler.transform] when a scaler is
    loaded; exceptions are re-raised.  [transform] is the fitted scaler's
    [transform] on the one-row frame, which may raise (scikit-learn raises
    [ValueError] when the column names or count differ from the fitted
    ones, or on an infinite or NaN value). *)
Definition preprocess_data (scaler : option (list pyfloat -> res (list pyfloat)))
    (schema : list string) (data : list (string * pyval)) : res (list pyfloat) :=
  match vectorize schema data with
  | Ok (row, _) =>
      match scaler with
      | Some transform => transform row
      | None => Ok row
      end
  | Raise e => Raise e
  end.

(** Lines 152-163 of [detect_anomaly], with the two thresholds as
    parameters: (is_anomaly, severity). *)
Definition Qltb (x y : Q) : bool := negb (Qle_bool y x).

Definition score_verdict (severe mild score : Q) : bool * string :=
  let is_anomaly := Qltb score mild in
  let severity :=
    if Qltb score severe then "high"
    else if Qltb score mild then "medium"
    else "low" in
  (is_anomaly, severity).

(** The literals [-0.15] and [-0.05] of lines 153-154, as the doubles
    they denote (the nearest binary64 values, exactly). *)
Definition SEVERE_THRESHOLD : Q := (-5404319552844595 # 36028797018963968)%Q.
Definition MILD_THRESHOLD : Q := (-3602879701896397 # 72057594037927936)%Q.

End Predicts.
Import Predicts.

(* ------------------------------------------------------------------ *)
(** * [json.dumps(obj, indent=2)] and the string formatting the alert
      message uses *)
Module Fmt.

Definition hex_digit (n : N) : string :=
  char (N.to_nat (if (n <? 10)%N then 48 + n else 87 + n)).

(** One character of a JSON string literal ([ensure_ascii=True]); a
    character is read as the code point of its byte. *)
Definition bslash : string := char 92.
Definition dquote : string := char 34.

Definition json_escape (c : ascii) : string :=
  let n := N_of_ascii c in
  if (n =? 34)%N then bslash ++ dquote
  else if (n =? 92)%N then bslash ++ bslash
  else if (32 <=? n)%N && (n <=? 126)%N then String c EmptyString
  else if (n =? 8)%N then bslash ++ "b"
  else if (n =? 12)%N then bslash ++ "f"
  else if (n =? 10)%N then bslash ++ "n"
  else if (n =? 13)%N then bslash ++ "r"
  else if (n =? 9)%N then bslash ++ "t"
  else bslash ++ "u00" ++ hex_digit (N.div n 16) ++ hex_digit (N.modulo n 16).

Fixpoint escape_all (s : string) : string :=
  match s with
  | String c r => json_escape c ++ escape_all r
  | EmptyString => EmptyString
  end.

Definition json_string (s : string) : string := dquote ++ escape_all s ++ dquote.

Fixpoint pad_left (k : nat) (s : string) : string :=
  match k with
  | O => s
  | S k' => if Nat.leb (S k') (String.length s) then s else "0" ++ pad_left k' s
  end.

(** Smallest [k <= 17] with [q * 10^k] an integer. *)
Fixpoint frac_digits (fuel k : nat) (q : Q) : nat :=
  match fuel with
  | O => k
  | S f =>
      if (Z.modulo (Qnum q * 10 ^ Z.of_nat k) (Zpos (Qden q)) =? 0)%Z then k
      else frac_digits f (S k) q
  end.

(** [float.__repr__] of a finite float, in positional notation ([5.0],
    [0.25], [-1.5]).  The exponent form Python uses below 1e-4 and from
    1e16 on is not modelled. *)
Definition float_repr (q0 : Q) : string :=
  let q := Qred q0 in
  let k := frac_digits 17 0 q in
  let n := (Qnum q * 10 ^ Z.of_nat k / Zpos (Qden q))%Z in
  let sign := if (n <? 0)%Z then "-" else EmptyString in
  let a := Z.abs n in
  match k with
  | O => sign ++ Z_repr a ++ ".0"
  | _ => sign ++ Z_repr (a / 10 ^ Z.of_nat k) ++ "."
         ++ pad_left k (Z_repr (Z.modulo a (10 ^ Z.of_nat k)))
  end.

(** [x.__format__(".4f")]: round half to even at four decimals. *)
Definition round_half_even (q : Q) : Z :=
  let fl := (Qnum q / Zpos (Qden q))%Z in
  let r2 := (2 * Z.modulo (Qnum q) (Zpos (Qden q)))%Z in
  if (r2 <? Zpos (Qden q))%Z then fl
  else if (Zpos (Qden q) <? r2)%Z then (fl + 1)%Z
  else if Z.even fl then fl else (fl + 1)%Z.

Definition format_4f (q : Q) : string :=
  let sign := if Qle_bool 0 q then EmptyString else "-" in
  let n := round_half_even (Qabs q * inject_Z 10000)%Q in
  sign ++ Z_repr (n / 10000) ++ "." ++ pad_left 4 (Z_repr (Z.modulo n 10000)).

(** [str.upper()] on ASCII letters. *)
Definition upper_ascii (c : ascii) : ascii :=
  let n := nat_of_ascii c in
  if Nat.leb 97 n && Nat.leb n 122 then ascii_of_nat (n - 32) else c.

Fixpoint upper (s : string) : string :=
  match s with
  | String c r => String (upper_ascii c) (upper r)
  | EmptyString => EmptyString
  end.

Fixpoint spaces (n : nat) : string :=
  match n with O => EmptyString | S k => String " "%char (spaces k) end.

(** [' ' * (indent * level)] after a newline, with [indent=2]. *)
Definition newline_indent (lvl : nat) : string := nl ++ spaces (2 * lvl).

Fixpoint join (sep : string) (l : list string) : string :=
  match l with
  | [] => EmptyString
  | [x] => x
  | x :: r => x ++ sep ++ join sep r
  end.

Fixpoint all_ok (l : list (res string)) : res (list string) :=
  match l with
  | [] => Ok []
  | Ok x :: r => match all_ok r with Ok xs => Ok (x :: xs) | Raise e => Raise e end
  | Raise e :: _ => Raise e
  end.

(** [json.dumps(v, indent=2)] at nesting level [lvl]; an object without a
    JSON encoding raises [TypeError]. *)
Fixpoint dumps (lvl : nat) (v : pyval) : res string :=
  match v with
  | PNone => Ok "null"
  | PBool b => Ok (if b then "true" else "false")
  | PInt z => Ok (Z_repr z)
  | PFloat (Fin q) => Ok (float_repr q)
  | PFloat (Inf neg) => Ok (if neg then "-Infinity" else "Infinity")
  | PFloat NaN => Ok "NaN"
  | PStr s => Ok (json_string s)
  | PList [] => Ok "[]"
  | PList l =>
      match all_ok (map (dumps (S lvl)) l) with
      | Ok items =>
          Ok ("[" ++ newline_indent (S lvl) ++ join ("," ++ newline_indent (S lvl)) items
              ++ newline_indent lvl ++ "]")
      | Raise e => Raise e
      end
  | PDict [] => Ok "{}"
  | PDict kv =>
      match all_ok (map (fun '(k, x) =>
                     match dumps (S lvl) x with
                     | Ok s => Ok (json_string k ++ ": " ++ s)
                     | Raise e => Raise e
                     end) kv) with
      | Ok items =>
          Ok ("{" ++ newline_indent (S lvl) ++ join ("," ++ newline_indent (S lvl)) items
              ++ newline_indent lvl ++ "}")
      | Raise e => Raise e
      end
  | POpaque _ => Raise TypeError
  end.


End Fmt.
Import Fmt.

(* ------------------------------------------------------------------ *)
(** * AlertAgent (scripts/alert_agent.py) *)
Module Alert.

(** The mutable attributes of an [AlertAgent] that the rate limiting
    reads and writes.  [alert_history] is the [defaultdict(list)] of
    emission times per alert type, [alert_cooldowns] the time of the last
    emission per alert type.  Times are [time.time()] readings. *)
Record AlertAgent : Type := mkAgent {
  rate_limit : Z;
  cooldown : Z;
  alert_history : Dict.dict (list Q);
  alert_cooldowns : Dict.dict Q
}.

Definition with_history (ag : AlertAgent) (h : Dict.dict (list Q)) : AlertAgent :=
  mkAgent (rate_limit ag) (cooldown ag) h (alert_cooldowns ag).

(** [AlertAgent(rate_limit=..., cooldown=...)]: empty history. *)
Definition init (rl cd : Z) : AlertAgent := mkAgent rl cd [] [].

(** [self.alert_history[t]] on the [defaultdict]. *)
Definition history_of (h : Dict.dict (list Q)) (k : string) : list Q :=
  match Dict.get h k with Some l => l | None => [] end.

(** Which branch [_is_rate_limited] leaves by: [return False], the
    cooldown [return True] or the rate-limit [return True] (the last two
    differ only in the warning printed). *)
Inductive verdict : Type :=
| NotLimited
| InCooldown
| RateLimitReached.

Definition limited (v : verdict) : bool :=
  match v with NotLimited => false | _ => true end.

(** [self.alert_cooldowns.get(alert_type, 0)] *)
Definition last_alert_of (ag : AlertAgent) (alert_type : string) : Q :=
  match Dict.get (alert_cooldowns ag) alert_type with Some t => t | None => 0%Q end.

(** [_is_rate_limited(alert_type)] with [time.time()] = [now]. *)
Definition is_rate_limited (ag : AlertAgent) (alert_type : string) (now : Q)
    : AlertAgent * verdict :=
  let recent := List.filter (fun t => Qltb (now - t) 60) (history_of (alert_history ag) alert_type) in
  let ag1 := with_history ag (Dict.set (alert_history ag) alert_type recent) in
  let last_alert := last_alert_of ag alert_type in
  if Qltb (now - last_alert) (inject_Z (cooldown ag)) then (ag1, InCooldown)
  else if (rate_limit ag <=? Z.of_nat (length recent))%Z then (ag1, RateLimitReached)
  else (ag1, NotLimited).

(** Lines 167-169 of [send_alert]: append [now] and stamp the cooldown. *)
Definition record_emission (ag : AlertAgent) (alert_type : string) (now : Q) : AlertAgent :=
  mkAgent (rate_limit ag) (cooldown ag)
    (Dict.set (alert_history ag) alert_type (history_of (alert_history ag) alert_type ++ [now])%list)
    (Dict.set (alert_cooldowns ag) alert_type now).

(** Lines 172-180 of [send_alert]: the loop over a snapshot of the keys.
    Its loop variable is [alert_type] itself, so the loop also returns the
    value [alert_type] is left with. *)
Fixpoint cleanup_loop (ks : list string) (h : Dict.dict (list Q)) (now : Q)
    (alert_type : string) : Dict.dict (list Q) * string :=
  match ks with
  | [] => (h, alert_type)
  | k :: rest =>
      let kept := List.filter (fun t => Qltb (now - t) 3600) (history_of h k) in
      let h1 := Dict.set h k kept in
      let h2 := match kept with [] => Dict.del h1 k | _ => h1 end in
      cleanup_loop rest h2 now k
  end.

Definition cleanup_history (h : Dict.dict (list Q)) (now : Q) (alert_type : string)
    : Dict.dict (list Q) * string :=
  cleanup_loop (Dict.keys h) h now alert_type.

(** The [alert_data] dict [detect_anomaly] passes to [send_alert]; all
    five keys are present. *)
Record AnomalyData : Type := mkData {
  ad_timestamp : string;
  ad_score : Q;
  ad_severity : string;
  ad_features : list (string * pyval);
  ad_message : string
}.

(** Lines 129-138 of [generate_alert_message]: the fallback text. *)
Definition fallback_message (ad : AnomalyData) : res string :=
  match dumps 0 (PDict (ad_features ad)) with
  | Ok details =>
      Ok ("SECURITY ALERT - " ++ upper (ad_severity ad) ++ " SEVERITY" ++ nl
          ++ "Time: " ++ ad_timestamp ad ++ nl
          ++ "Anomaly Score: " ++ format_4f (ad_score ad) ++ nl
          ++ "Details: " ++ substring 0 500 details)
  | Raise e => Raise e
  end.

(** [json.dumps(anomaly_data, indent=2)] in the prompt: only the features
    can fail to encode. *)
Definition prompt_encodes (ad : AnomalyData) : bool :=
  match dumps 0 (PDict (ad_features ad)) with Ok _ => true | Raise _ => false end.

(** [generate_alert_message].  [client] is [self.client]: [None] without
    an API key, otherwise the completion call, whose [None] result stands
    for any exception raised while calling it or reading the response. *)
Definition generate_alert_message (client : option (AnomalyData -> option string))
    (ad : AnomalyData) : res string :=
  match client with
  | Some call =>
      if prompt_encodes ad then
        match call ad with
        | Some content => Ok (str_strip content)
        | None => fallback_message ad
        end
      else fallback_message ad
  | None => fallback_message ad
  end.

(** The dict [send_alert] returns. *)
Record AlertRecord : Type := mkRecord {
  status : string;
  message : string;
  alert_type_field : option string;
  timestamp : string
}.

Definition exc_name (e : exc) : string :=
  match e with
  | ValueError => "ValueError"
  | TypeError => "TypeError"
  | OverflowError => "OverflowError"
  end.

(** [send_alert(anomaly_data)]: [t_check] is the [time.time()] read in
    [_is_rate_limited], [t_record] the one at line 167, [stamp] the
    [datetime.now().isoformat()] of the returned dict.  The exception text
    of the [error] record is reduced to the exception's class name. *)
Definition send_alert (ag : AlertAgent) (client : option (AnomalyData -> option string))
    (ad : AnomalyData) (t_check t_record : Q) (stamp : string)
    : AlertAgent * AlertRecord :=
  let alert_type := ad_severity ad in
  let '(ag1, v) := is_rate_limited ag alert_type t_check in
  if limited v then
    (ag1, mkRecord "rate_limited" ("Alert rate limit reached for type: " ++ alert_type) None stamp)
  else
    match generate_alert_message client ad with
    | Raise e => (ag1, mkRecord "error" ("Error sending alert: " ++ exc_name e) None stamp)
    | Ok _ =>
        let ag2 := record_emission ag1 alert_type t_record in
        let '(h3, alert_type') := cleanup_history (alert_history ag2) t_record alert_type in
        (with_history ag2 h3,
         mkRecord "success" ("Alert generated and sent (Type: " ++ alert_type' ++ ")")
                  (Some alert_type') stamp)
    end.

End Alert.
Import Alert.

(* ------------------------------------------------------------------ *)
(** * AnomalyDetector.detect_anomaly (scripts/predicts.py) *)
Module Detector.

(** The [result] dict of [detect_anomaly]. *)
Record ScoreResult : Type := mkResult {
  is_anomaly : bool;
  anomaly_score : Q;
  severity : string;
  sr_timestamp : string;
  features : list (string * pyval)
}.

(** [detect_anomaly(data)] with the two threshold constants of lines
    153-154 as parameters.  [scaler] and [decision_function] are the loaded
    artifacts (the latter may raise); the agent is [self.alert_agent];
    [t_check], [t_record], [stamp_alert] are the clock readings of the
    [send_alert] call and [stamp] the result's [datetime.now()]. *)
Definition detect_anomaly_with (severe mild : Q)
    (scaler : option (list pyfloat -> res (list pyfloat)))
    (decision_function : list pyfloat -> res Q)
    (ag : AlertAgent) (client : option (AnomalyData -> option string))
    (t_check t_record : Q) (stamp stamp_alert : string)
    (data : list (string * pyval)) : res (AlertAgent * ScoreResult) :=
  match preprocess_data scaler feature_names data with
  | Raise e => Raise e
  | Ok processed =>
      match decision_function processed with
      | Raise e => Raise e
      | Ok score =>
          let '(anom, sev) := score_verdict severe mild score in
          let result := mkResult anom score sev stamp data in
          if anom then
            let alert_data :=
              mkData stamp score sev data
                ("Anomaly detected with score: " ++ format_4f score
                 ++ " (Severity: " ++ upper sev ++ ")") in
            Ok (fst (send_alert ag client alert_data t_check t_record stamp_alert), result)
          else Ok (ag, result)
      end
  end.

Definition detect_anomaly := detect_anomaly_with SEVERE_THRESHOLD MILD_THRESHOLD.

End Detector.
Import Detector.

(* ------------------------------------------------------------------ *)
(** * Concrete inputs used by the examples below *)
Module Samples.

Definition alert_for (sev : string) (feats : list (string * pyval)) : AnomalyData :=
  mkData "2026-10-17T12:00:00" (-20 # 100)%Q sev feats
    ("Anomaly detected with score: -0.2000 (Severity: " ++ upper sev ++ ")").

Definition flow : list (string * pyval) := [("Flow Duration", PInt 5)].


(** The spec's scenario: [AlertAgent(rate_limit=2, cooldown=0)], two
    dispatches of a [high] alert at t=0 and t=10. *)
Definition spec_run : AlertAgent :=
  fst (send_alert (fst (send_alert (init 2 0) None (alert_for "high" flow) 0 0 "t0"))
         None (alert_for "high" flow) 10 10 "t1").

(** [AlertAgent(rate_limit=2, cooldown=10)], dispatches of a [high] alert
    at t=1000 and t=1010. *)
Definition first_send : AlertAgent * AlertRecord :=
  send_alert (init 2 10) None (alert_for "high" flow) 1000 1000 "t0".

Definition second_send : AlertAgent * AlertRecord :=
  send_alert (fst first_send) None (alert_for "high" flow) 1010 1010 "t1".

(** Default agent, a [high] alert at t=1000, a [medium] one at t=1001 and
    a [high] one at t=1400, after the cooldown of [high] has run out. *)
Definition mixed_1 : AlertAgent * AlertRecord :=
  send_alert (init 5 300) None (alert_for "high" flow) 1000 1000 "t0".

Definition mixed_2 : AlertAgent * AlertRecord :=
  send_alert (fst mixed_1) None (alert_for "medium" flow) 1001 1001 "t1".

Definition mixed_3 : AlertAgent * AlertRecord :=
  send_alert (fst mixed_2) None (alert_for "high" flow) 1400 1400 "t2".

End Samples.
Import Samples.

(* ------------------------------------------------------------------ *)
(** * [text_to_dataframe] (scripts/file_processor.py) *)
Module FileProcessor.

(** The three columns of the DataFrame [text_to_dataframe] builds. *)
Record TextFrame : Type := mkFrame {
  col_text : list string;
  col_length : list nat;
  col_word_count : list nat
}.

(** [text_to_dataframe(text)] for a [str] argument (the DataFrame
    pass-through branch is not modelled). *)
Definition text_to_dataframe (text : string) : TextFrame :=
  let lines := map str_strip
                 (List.filter (fun line => negb (String.eqb (str_strip line) EmptyString))
                    (split_lines text)) in
  mkFrame lines (map String.length lines) (map (fun line => length (split_words line)) lines).

End FileProcessor.
Import FileProcessor.

(* ------------------------------------------------------------------ *)
(** * [preprocess_input] (scripts/model_utils.py) *)
Module ModelUtils.

(** A DataFrame column by dtype: float64 (a missing value is NaN), int64,
    bool, or object. *)
Inductive column : Type :=
| FloatCol (xs : list pyfloat)
| IntCol (xs : list Z)
| BoolCol (xs : list bool)
| ObjectCol (xs : list pyval).

(** A DataFrame: its columns in order. *)
Definition frame := list (string * column).

(** [select_dtypes(include=[np.number])]: ints and floats, not bools. *)
Definition is_number (c : column) : bool :=
  match c with FloatCol _ | IntCol _ => true | _ => false end.

Definition is_na (x : pyfloat) : bool := match x with NaN => true | _ => false end.

(** [fillna(method='ffill')] down one column: a missing value takes the
    last value present above it, if any. *)
Fixpoint ffill (last : option pyfloat) (xs : list pyfloat) : list pyfloat :=
  match xs with
  | [] => []
  | x :: r =>
      if is_na x then (match last with Some v => v | None => x end) :: ffill last r
      else x :: ffill (Some x) r
  end.

(** [fillna(0)] *)
Definition fillna0 (xs : list pyfloat) : list pyfloat :=
  map (fun x => if is_na x then Fin 0 else x) xs.

Definition fill_column (c : column) : column :=
  match c with
  | FloatCol xs => FloatCol (fillna0 (ffill None xs))
  | _ => c
  end.

(** [preprocess_input(df)] *)
Definition preprocess_input (df : frame) : frame :=
  map (fun '(name, c) => (name, fill_column c)) (List.filter (fun nc => is_number (snd nc)) df).

End ModelUtils.
Import ModelUtils.

(* ------------------------------------------------------------------ *)
(** * The [RESULTS] store of the upload dashboard (web/app.py) *)
Module WebApp.

(** A record of [merged.to_dict(orient="records")]: its ["score"] (the
    [score_samples] value [score_batch] adds, never NaN) and its other
    cells. *)
Record Row : Type := mkRow {
  row_score : Q;
  row_cells : Dict.dict pyval
}.

(** [r[k] = None] when [pd.isna(v)]. *)
Definition none_if_nan (v : pyval) : pyval :=
  match v with PFloat NaN => PNone | _ => v end.

(** [r['_timestamp'] = ...], then every NaN cell replaced by [None]. *)
Definition clean_row (stamp : string) (r : Row) : Row :=
  mkRow (row_score r)
    (map (fun '(k, v) => (k, none_if_nan v)) (Dict.set (row_cells r) "_timestamp" (PStr stamp))).

(** The loop over [top]; [stamps i] is the [datetime.utcnow()] reading for
    the [i]-th record. *)
Fixpoint clean_rows (i : nat) (stamps : nat -> string) (rows : list Row) : list Row :=
  match rows with
  | [] => []
  | r :: rest => clean_row (stamps i) r :: clean_rows (S i) stamps rest
  end.

(** [score > 0.7] *)
Definition above_threshold (r : Row) : bool := Qltb (7 # 10) (row_score r).

(** Lines 73-89 of [score_csv]: [sorted] is
    [merged.sort_values(by="score", ascending=False)] (pandas leaves the
    order of equal scores unspecified).  Returns the new [RESULTS] and
    [anomaly_count]. *)
Definition score_csv_update (merged sorted : list Row) (stamps : nat -> string)
    (results : list Row) : list Row * nat :=
  let top := clean_rows 0 stamps (firstn 50 sorted) in
  ((top ++ firstn 100 results)%list, length (List.filter above_threshold merged)).

(** [/api/recent] *)
Definition get_recent (results : list Row) : list Row := firstn 10 results.

(** [/api/stats]: [(totalScans, threatsDetected)]. *)
Definition get_stats (results : list Row) : nat * nat :=
  (length results, length (List.filter above_threshold results)).

(** One successful upload: its merged records, their sorted order and the
    clock readings. *)
Record Upload : Type := mkUpload {
  up_merged : list Row;
  up_sorted : list Row;
  up_stamps : nat -> string
}.

(** [RESULTS] after a sequence of uploads from the empty start. *)
Definition results_after (ups : list Upload) : list Row :=
  fold_left (fun res u => fst (score_csv_update (up_merged u) (up_sorted u) (up_stamps u) res))
    ups [].

End WebApp.
Import WebApp.

(* ------------------------------------------------------------------ *)
(** * Model files: [train] (scripts/train.py) and
      [AnomalyDetector._load_latest_model] (scripts/predicts.py) *)
Module ModelStore.

Definition model_prefix : string := "isolation_forest_".
Definition joblib_ext : string := ".joblib".

Definition ends_with (suf s : string) : bool :=
  Nat.leb (String.length suf) (String.length s) &&
  String.eqb (substring (String.length s - String.length suf) (String.length suf) s) suf.

(** A file name matched by [glob('isolation_forest_*.joblib')]. *)
Definition glob_match (name : string) : bool :=
  String.prefix model_prefix name && ends_with joblib_ext name &&
  Nat.leb (String.length model_prefix + String.length joblib_ext) (String.length name).

(** [name.rfind('.')], [None] for -1. *)
Fixpoint rfind_dot (s : string) : option nat :=
  match s with
  | EmptyString => None
  | String c r =>
      match rfind_dot r with
      | Some i => Some (S i)
      | None => if Ascii.eqb c "."%char then Some 0 else None
      end
  end.

(** [PurePath.stem] of a file name. *)
Definition stem (name : string) : string :=
  match rfind_dot name with
  | Some i => if Nat.ltb 0 i && Nat.ltb i (String.length name - 1) then substring 0 i name else name
  | None => name
  end.

Fixpoint replace_fuel (fuel : nat) (old new s : string) : string :=
  match fuel, s with
  | O, _ => s
  | _, EmptyString => EmptyString
  | S f, String c r =>
      if String.prefix old s
      then new ++ replace_fuel f old new (substring (String.length old) (String.length s) s)
      else String c (replace_fuel f old new r)
  end.

(** [s.replace(old, new)] for a non-empty [old]: every occurrence, left to
    right, without overlap. *)
Definition str_replace (old new s : string) : string :=
  replace_fuel (String.length s) old new s.

(** [max(model_files, key=os.path.getmtime)]: the first file of greatest
    modification time. *)
Fixpoint max_by_mtime (best : string * Q) (l : list (string * Q)) : string * Q :=
  match l with
  | [] => best
  | x :: r => if Qltb (snd best) (snd x) then max_by_mtime x r else max_by_mtime best r
  end.

(** [f'scaler_{model_timestamp}.joblib'] for a model file. *)
Definition scaler_for (model_file : string) : string :=
  "scaler_" ++ str_replace model_prefix EmptyString (stem model_file) ++ joblib_ext.

(** [_load_latest_model] over a directory listing of (name, mtime) in
    [glob] order: the model and scaler files it loads, [None] when it
    raises (no model file, or no scaler file of the derived name). *)
Definition load_latest_model (files : list (string * Q)) : option (string * string) :=
  match List.filter (fun f => glob_match (fst f)) files with
  | [] => None
  | f :: rest =>
      let latest := fst (max_by_mtime f rest) in
      let sc := scaler_for latest in
      if existsb (fun g => String.eqb (fst g) sc) files then Some (latest, sc) else None
  end.

(** The two files [train] saves for a timestamp. *)
Definition model_file_name (ts : string) : string := model_prefix ++ ts ++ joblib_ext.
Definition scaler_file_name (ts : string) : string := "scaler_" ++ ts ++ joblib_ext.

(** The characters [strftime("%Y%m%d_%H%M%S")] produces. *)
Definition stamp_char (c : ascii) : bool :=
  (Nat.leb 48 (nat_of_ascii c) && Nat.leb (nat_of_ascii c) 57) || Ascii.eqb c "_"%char.

Fixpoint all_chars (p : ascii -> bool) (s : string) : bool :=
  match s with
  | EmptyString => true
  | String c r => p c && all_chars p r
  end.

End ModelStore.
Import ModelStore.

(* ------------------------------------------------------------------ *)
(** * [generate_sample_network_traffic] (main.py) *)
Module MainSample.

(** [random.randint(lo, hi)] or [random.uniform(lo, hi)]. *)
Inductive draw : Type :=
| RandInt (lo hi : Z)
| Uniform (lo hi : Q).

Definition sample_spec : list (string * draw) := [
    ("Destination Port", RandInt 0 65535);
    ("Flow Duration", RandInt 100 1000000);
    ("Total Fwd Packets", RandInt 1 1000);
    ("Total Length of Fwd Packets", RandInt 100 1000000);
    ("Fwd Packet Length Max", RandInt 100 1500);
    ("Fwd Packet Length Min", RandInt 20 1000);
    ("Fwd Packet Length Mean", Uniform 100 1200);
    ("Fwd Packet Length Std", Uniform 1 500);
    ("Bwd Packet Length Max", RandInt 0 1500);
    ("Bwd Packet Length Min", RandInt 0 500);
    ("Bwd Packet Length Mean", Uniform 0 1000);
    ("Bwd Packet Length Std", Uniform 0 500);
    ("Flow Bytes/s", Uniform 1000 1000000);
    ("Flow Packets/s", Uniform 10 10000);
    ("Flow IAT Mean", Uniform 0 1000);
    ("Flow IAT Std", Uniform 0 1000);
    ("Flow IAT Max", Uniform 0 5000);
    ("Flow IAT Min", Uniform 0 100);
    ("Fwd IAT Total", Uniform 0 100000);
    ("Fwd IAT Mean", Uniform 0 1000);
    ("Fwd IAT Std", Uniform 0 1000);
    ("Fwd IAT Max", Uniform 0 5000);
    ("Fwd IAT Min", Uniform 0 100);
    ("Bwd IAT Total", Uniform 0 100000);
    ("Bwd IAT Mean", Uniform 0 1000);
    ("Bwd IAT Std", Uniform 0 1000);
    ("Bwd IAT Max", Uniform 0 5000);
    ("Bwd IAT Min", Uniform 0 100);
    ("Fwd Header Length", RandInt 0 1000);
    ("Bwd Header Length", RandInt 0 1000);
    ("Fwd Packets/s", Uniform 0 10000);
    ("Bwd Packets/s", Uniform 0 10000);
    ("Min Packet Length", RandInt 0 1000);
    ("Max Packet Length", RandInt 100 1500);
    ("Packet Length Mean", Uniform 100 1200);
    ("Packet Length Std", Uniform 1 500);
    ("Packet Length Variance", Uniform 1 250000);
    ("FIN Flag Count", RandInt 0 1);
    ("PSH Flag Count", RandInt 0 1);
    ("ACK Flag Count", RandInt 0 1);
    ("Average Packet Size", Uniform 100 1500);
    ("Subflow Fwd Bytes", RandInt 0 1000000);
    ("Init_Win_bytes_forward", RandInt 0 65535);
    ("Init_Win_bytes_backward", RandInt 0 65535);
    ("act_data_pkt_fwd", RandInt 0 10);
    ("min_seg_size_forward", RandInt 0 1000);
    ("Active Mean", Uniform 0 1000000);
    ("Active Max", Uniform 0 1000000);
    ("Active Min", Uniform 0 1000000);
    ("Idle Mean", Uniform 0 1000000);
    ("Idle Max", Uniform 0 1000000);
    ("Idle Min", Uniform 0 1000000) ].

(** The dict [generate_sample_network_traffic] returns; [pick k d] is the
    value drawn for key [k]. *)
Definition generate_sample_network_traffic (pick : string -> draw -> pyval)
    : list (string * pyval) :=
  map (fun '(k, d) => (k, pick k d)) sample_spec.

(** The values a draw can give: an [int] in [lo, hi], or a [float] in
    [lo, hi]. *)
Definition drawn_from (d : draw) (v : pyval) : Prop :=
  match d, v with
  | RandInt lo hi, PInt z => (lo <= z <= hi)%Z
  | Uniform lo hi, PFloat (Fin q) => (lo <= q <= hi)%Q
  | _, _ => False
  end.

End MainSample.
Import MainSample.

(* ------------------------------------------------------------------ *)
(** * The [/detect] endpoint (web/app.py) *)
Module WebDetect.

(** [bool(v)] *)
Definition truthy (v : pyval) : bool :=
  match v with
  | PNone => false
  | PBool b => b
  | PInt z => negb (Z.eqb z 0)
  | PFloat (Fin q) => negb (Qeq_bool q 0)
  | PFloat _ => true
  | PStr s => negb (String.eqb s EmptyString)
  | PList l => negb (match l with [] => true | _ => false end)
  | PDict kv => negb (match kv with [] => true | _ => false end)
  | POpaque _ => true
  end.

(** [type(v).__name__] *)
Definition type_name (v : pyval) : string :=
  match v with
  | PNone => "NoneType"
  | PBool _ => "bool"
  | PInt _ => "int"
  | PFloat _ => "float"
  | PStr _ => "str"
  | PList _ => "list"
  | PDict _ => "dict"
  | POpaque t => t
  end.

Record Response : Type := mkResponse {
  code : nat;
  body : Dict.dict pyval
}.

(** [{k: v for i, (k, v) in enumerate(features.items()) if i < 5}] *)
Fixpoint first_features (i : nat) (kv : list (string * pyval)) (acc : Dict.dict pyval)
    : Dict.dict pyval :=
  match kv with
  | [] => acc
  | (k, v) :: r => first_features (S i) r (if Nat.ltb i 5 then Dict.set acc k v else acc)
  end.

(** The 500 reply of [detect()]'s [except] clause. *)
Definition error_response (stamp_err msg : string) : Response :=
  mkResponse 500 [("status", PStr "error"); ("message", PStr msg); ("timestamp", PStr stamp_err)].

(** [detect()].  [req] is the outcome of [request.get_json()]: [inr v]
    the parsed body ([PNone] when Flask returns [None]), [inl msg] an
    exception with [str(e) = msg] (a [BadRequest] on malformed JSON, an
    [UnsupportedMediaType] on another content type).  [load] is the
    outcome of [get_anomaly_detector()]: [None] when it returns the
    detector, [Some msg] when building it raised (as [_load_latest_model]
    raises [FileNotFoundError] when no model file exists).  [ag] is the
    detector's alert agent; the other arguments are those of
    [detect_anomaly] and [stamp_err] is the [datetime.now()] of the error
    reply.  The message of an exception raised inside [detect_anomaly] is
    reduced to its class name. *)
Definition detect (scaler : option (list pyfloat -> res (list pyfloat)))
    (decision_function : list pyfloat -> res Q)
    (client : option (AnomalyData -> option string))
    (t_check t_record : Q) (stamp stamp_alert stamp_err : string)
    (ag : AlertAgent) (req : string + pyval) (load : option string) : AlertAgent * Response :=
  match req with
  | inl msg => (ag, error_response stamp_err msg)
  | inr data =>
      if negb (truthy data) then (ag, mkResponse 400 [("error", PStr "No data provided")])
      else match load with
      | Some msg => (ag, error_response stamp_err msg)
      | None =>
          match data with
          | PDict kv =>
              match detect_anomaly scaler decision_function ag client t_check t_record
                      stamp stamp_alert kv with
              | Raise e => (ag, error_response stamp_err (exc_name e))
              | Ok (ag', r) =>
                  (ag', mkResponse 200
                          [("status", PStr "success"); ("is_anomaly", PBool (is_anomaly r));
                           ("score", PFloat (Fin (anomaly_score r))); ("severity", PStr (severity r));
                           ("timestamp", PStr (sr_timestamp r));
                           ("features", PDict (first_features 0 (features r) []))])
              end
          | _ => (ag, error_response stamp_err
                        ("'" ++ type_name data ++ "' object has no attribute 'items'"))
          end
      end
  end.

End WebDetect.
Import WebDetect.

(* ------------------------------------------------------------------ *)
(** * [score_csv] on an uploaded text file (anomaly_detection/web/app.py) *)
Module ScoreCsv.

(** The DataFrame [text_to_dataframe] builds,
    [pd.DataFrame({'text': lines, 'length': [...], 'word_count': [...]})]:
    object, int64 and int64 columns.  With no line every column is built
    from an empty list, whose dtype depends on the pandas version; [empty]
    is that empty column. *)
Definition text_frame (empty : column) (tf : TextFrame) : frame :=
  match col_text tf with
  | [] => [("text", empty); ("length", empty); ("word_count", empty)]
  | _ => [("text", ObjectCol (map PStr (col_text tf)));
          ("length", IntCol (map Z.of_nat (col_length tf)));
          ("word_count", IntCol (map Z.of_nat (col_word_count tf)))]
  end.

(** [df.select_dtypes(include=['number']).columns.tolist()] *)
Definition numeric_cols (df : frame) : list string :=
  map fst (List.filter (fun nc => is_number (snd nc)) df).

(** [df[cols]]: a missing column raises [KeyError] ([None]). *)
Fixpoint frame_select (df : frame) (cols : list string) : option frame :=
  match cols with
  | [] => Some []
  | c :: rest =>
      match Dict.get df c, frame_select df rest with
      | Some col, Some r => Some ((c, col) :: r)
      | _, _ => None
      end
  end.

(** Lines 50-58 of [score_csv]: the columns passed to [score_batch], or
    [None] for the 400 reply. *)
Definition feature_columns (df : frame) : option (list string) :=
  match numeric_cols df with
  | [] =>
      if existsb (String.eqb "text") (map fst df) then
        if forallb (fun c => existsb (String.eqb c) (map fst df)) ["length"; "word_count"]
        then Some ["length"; "word_count"] else None
      else Some []
  | cols => Some cols
  end.

End ScoreCsv.
Import ScoreCsv.

(* ------------------------------------------------------------------ *)
(** * Derived definitions used by the statements and proofs below *)

(** Total length of a list of strings. *)
Definition sum_lengths (l : list string) : nat := list_sum (map String.length l).

(** The last value of a column that is not missing, starting from [acc]. *)
Fixpoint last_present_from (acc : option pyfloat) (l : list pyfloat) : option pyfloat :=
  match l with
  | [] => acc
  | x :: r => last_present_from (if is_na x then acc else Some x) r
  end.

Definition last_present (l : list pyfloat) : option pyfloat := last_present_from None l.

(** An upload row with a given score and a missing value. *)
Definition row_at (s : Q) : Row := mkRow s [("Flow Duration", PFloat NaN)].

(** Twelve records scored 0, 1, ..., 11, in this order. *)
Definition ascending_rows : list Row := map (fun i => row_at (inject_Z (Z.of_nat i))) (seq 0 12).

(** An upload of 60 records. *)
Definition full_upload : Upload :=
  mkUpload (repeat (row_at 0) 60) (repeat (row_at 0) 60) (fun _ => "2026-10-17T12:00:00").

(** The value a slot receives from a record value: [float(value)], or 0.0
    when [float] raises. *)
Definition slot_value (v : pyval) : pyfloat :=
  match py_float v with Ok x => x | Raise _ => Fin 0 end.

(** The warnings one record entry produces. *)
Definition warnings_for (schema : list string) (kv : string * pyval) : list warning :=
  let '(k, v) := kv in
  if existsb (String.eqb k) schema
  then match py_float v with Ok _ => [] | Raise _ => [CouldNotConvert k] end
  else [IgnoringUnknown k].

(** The float a drawn value stands for. *)
Definition number_value (v : pyval) : pyfloat :=
  match v with PInt z => Fin (inject_Z z) | PFloat f => f | _ => Fin 0 end.

(** The bounds of a draw: integers between 0 and 10^6, ordered bounds. *)
Definition valid_draw (d : draw) : bool :=
  match d with
  | RandInt lo hi => (0 <=? lo)%Z && (lo <=? hi)%Z && (hi <=? 1000000)%Z
  | Uniform lo hi => Qle_bool lo hi
  end.

Fixpoint nodupb (l : list string) : bool :=
  match l with
  | [] => true
  | x :: r => negb (existsb (String.eqb x) r) && nodupb r
  end.

(** The lower bounds of every range. *)
Definition pick_low (k : string) (d : draw) : pyval :=
  match d with RandInt lo _ => PInt lo | Uniform lo _ => PFloat (Fin lo) end.

(** A [decision_function] that scores every row 0.1. *)
Definition detect_sample_df (_ : list pyfloat) : res Q := Ok (1 # 10)%Q.

(** A [decision_function] that scores every row -0.2 (the double). *)
Definition detect_high_df (_ : list pyfloat) : res Q :=
  Ok (-3602879701896397 # 18014398509481984)%Q.

(** A posted JSON object of seven entries, one of them not a feature. *)
Definition posted_flow : list (string * pyval) :=
  [("Destination Port", PInt 443); ("Flow Duration", PInt 5); ("Total Fwd Packets", PStr "3");
   ("unknown", PBool true); ("Flow Bytes/s", PStr "1_000"); ("Flow IAT Mean", PFloat (Fin (5 # 2)));
   ("Idle Max", PInt 7)].

(** [/detect] on [posted_flow] with the model loaded. *)
Definition detect_posted : AlertAgent * Response :=
  detect None detect_high_df None 1000 1000 "t0" "t0" "t1" (init 5 300) (inr (PDict posted_flow)) None.

(* ================================================================== *)
(** * Generic facts about the dict model *)

Module DictFacts.
Section Facts.
Context {V : Type}.
Implicit Types (d : Dict.dict V) (k : string) (v : V).

Lemma get_set_same d k v : Dict.get (Dict.set d k v) k = Some v.
Proof.
  induction d as [|[k' v'] r IH]; simpl.
  - rewrite String.eqb_refl. reflexivity.
  - destruct (String.eqb_spec k k') as [->|Hne]; simpl.
    + rewrite String.eqb_refl. reflexivity.
    + destruct (String.eqb_spec k k'); [contradiction|exact IH].
Qed.

Lemma get_set_other d k k2 v : k2 <> k -> Dict.get (Dict.set d k v) k2 = Dict.get d k2.
Proof.
  intros Hne. induction d as [|[k' v'] r IH]; simpl.
  - destruct (String.eqb_spec k2 k); [contradiction|reflexivity].
  - destruct (String.eqb_spec k k') as [->|Hkk]; simpl.
    + destruct (String.eqb_spec k2 k'); [contradiction|reflexivity].
    + destruct (String.eqb_spec k2 k'); [reflexivity|exact IH].
Qed.

Lemma set_set d k v w : Dict.set (Dict.set d k v) k w = Dict.set d k w.
Proof.
  induction d as [|[k' v'] r IH]; simpl.
  - rewrite String.eqb_refl. reflexivity.
  - destruct (String.eqb_spec k k') as [->|Hne]; simpl.
    + rewrite String.eqb_refl. reflexivity.
    + destruct (String.eqb_spec k k'); [contradiction|now rewrite IH].
Qed.

Lemma in_keys_set d k v k2 :
  In k2 (Dict.keys (Dict.set d k v)) <-> k2 = k \/ In k2 (Dict.keys d).
Proof.
  induction d as [|[k' v'] r IH]; simpl.
  - intuition congruence.
  - destruct (String.eqb_spec k k') as [->|Hne]; simpl.
    + intuition congruence.
    + rewrite IH. intuition congruence.
Qed.

Lemma nodup_set d k v : NoDup (Dict.keys d) -> NoDup (Dict.keys (Dict.set d k v)).
Proof.
  induction d as [|[k' v'] r IH]; simpl; intros Hnd.
  - constructor; [intros []|constructor].
  - inversion Hnd as [|? ? Hni Hnd']; subst.
    destruct (String.eqb_spec k k') as [->|Hne]; simpl.
    + constructor; assumption.
    + constructor; [|now apply IH].
      rewrite in_keys_set. intros [->|Hin]; [apply Hne; reflexivity|contradiction].
Qed.

Lemma in_set d k v k2 v2 :
  NoDup (Dict.keys d) -> In (k2, v2) (Dict.set d k v) ->
  (k2 = k /\ v2 = v) \/ (k2 <> k /\ In (k2, v2) d).
Proof.
  induction d as [|[k' v'] r IH]; simpl; intros Hnd Hin.
  - destruct Hin as [Heq|[]]. inversion Heq; subst. left; split; reflexivity.
  - inversion Hnd as [|? ? Hni Hnd']; subst.
    destruct (String.eqb_spec k k') as [->|Hne]; simpl in Hin.
    + destruct Hin as [Heq|Hin].
      * inversion Heq; subst. left; split; reflexivity.
      * right. split; [|right; exact Hin].
        intros ->. apply Hni. apply (in_map fst _ _ Hin).
    + destruct Hin as [Heq|Hin].
      * inversion Heq; subst. right. split; [intros ->; apply Hne; reflexivity|left; reflexivity].
      * destruct (IH Hnd' Hin) as [H|[H1 H2]]; [left; exact H|right; split; [exact H1|right; exact H2]].
Qed.

Lemma in_keys_del d k k2 : In k2 (Dict.keys (Dict.del d k)) -> In k2 (Dict.keys d).
Proof.
  induction d as [|[k' v'] r IH]; simpl; [tauto|].
  destruct (String.eqb_spec k k'); simpl; intros H; [right; exact H|].
  destruct H as [H|H]; [left; exact H|right; apply IH; exact H].
Qed.

Lemma nodup_del d k : NoDup (Dict.keys d) -> NoDup (Dict.keys (Dict.del d k)).
Proof.
  induction d as [|[k' v'] r IH]; simpl; intros Hnd; [exact Hnd|].
  inversion Hnd as [|? ? Hni Hnd']; subst.
  destruct (String.eqb_spec k k'); simpl; [exact Hnd'|].
  constructor; [|apply IH; exact Hnd'].
  intros Hin. apply Hni. apply (in_keys_del _ _ _ Hin).
Qed.

Lemma in_del d k k2 v2 :
  NoDup (Dict.keys d) -> In (k2, v2) (Dict.del d k) -> k2 <> k /\ In (k2, v2) d.
Proof.
  induction d as [|[k' v'] r IH]; simpl; intros Hnd Hin; [contradiction|].
  inversion Hnd as [|? ? Hni Hnd']; subst.
  destruct (String.eqb_spec k k') as [->|Hne].
  - split; [|right; exact Hin].
    intros ->. apply Hni. apply (in_map fst _ _ Hin).
  - destruct Hin as [Heq|Hin].
    + inversion Heq; subst. split; [intros ->; apply Hne; reflexivity|left; reflexivity].
    + destruct (IH Hnd' Hin) as [H1 H2]. split; [exact H1|right; exact H2].
Qed.

End Facts.
End DictFacts.

(** * Facts about the comparisons and filters the code uses *)
Lemma Qltb_iff (x y : Q) : Qltb x y = true <-> (x < y)%Q.
Proof.
  unfold Qltb. destruct (Qle_bool y x) eqn:E; simpl.
  - apply Qle_bool_iff in E. split; [discriminate|intros H; exfalso; apply (Qlt_not_le _ _ H E)].
  - split; [intros _|reflexivity].
    apply Qnot_le_lt. intros H. apply Qle_bool_iff in H. congruence.
Qed.

Lemma Qltb_false (x y : Q) : Qltb x y = false <-> (y <= x)%Q.
Proof.
  unfold Qltb. destruct (Qle_bool y x) eqn:E; simpl.
  - apply Qle_bool_iff in E. split; [intros; exact E|reflexivity].
  - split; [discriminate|intros H; apply Qle_bool_iff in H; congruence].
Qed.

Lemma filter_idem {A} (f : A -> bool) (l : list A) :
  List.filter f (List.filter f l) = List.filter f l.
Proof.
  induction l as [|x r IH]; simpl; [reflexivity|].
  destruct (f x) eqn:E; simpl; [rewrite E, IH; reflexivity|exact IH].
Qed.

Lemma history_of_set_same (h : Dict.dict (list Q)) (c : string) (l : list Q) :
  history_of (Dict.set h c l) c = l.
Proof. unfold history_of. rewrite DictFacts.get_set_same. reflexivity. Qed.

Lemma fst_is_rate_limited (ag : AlertAgent) (c : string) (now : Q) :
  fst (is_rate_limited ag c now) =
  with_history ag (Dict.set (alert_history ag) c
    (List.filter (fun t => Qltb (now - t) 60) (history_of (alert_history ag) c))).
Proof.
  unfold is_rate_limited.
  destruct (Qltb _ _); [reflexivity|]. destruct (_ <=? _)%Z; reflexivity.
Qed.

(* ================================================================== *)
(** * Admission control of [AlertAgent] *)

(** C5: [_is_rate_limited] is an idempotent read.  Checking a second time
    at the same [now], on the state the first check left, gives the same
    verdict and leaves the same state: the pruning of the first check
    removed all that the second one would remove. *)
Theorem is_rate_limited_idempotent (ag : AlertAgent) (c : string) (now : Q) :
  is_rate_limited (fst (is_rate_limited ag c now)) c now = is_rate_limited ag c now.
Proof.
  rewrite fst_is_rate_limited. destruct ag as [rl cd h cds].
  unfold is_rate_limited, last_alert_of; cbn [with_history alert_history alert_cooldowns cooldown rate_limit].
  rewrite history_of_set_same, filter_idem, DictFacts.set_set. reflexivity.
Qed.

(** C4: when the alert type has a recorded last emission less than
    [cooldown] seconds before [now], the check denies in its cooldown branch,
    whatever the window count; in particular right after [record_emission]
    at [t], a check at [t] is in cooldown when [cooldown > 0]. *)
Theorem cooldown_blocks (ag : AlertAgent) (c : string) (now last : Q)
  (Hcd : (0 < cooldown ag)%Z)
  (Hlast : Dict.get (alert_cooldowns ag) c = Some last)
  (Hnear : (now - last < inject_Z (cooldown ag))%Q) :
  snd (is_rate_limited ag c now) = InCooldown /\
  (forall t, snd (is_rate_limited (record_emission ag c t) c t) = InCooldown).
Proof.
  split.
  - unfold is_rate_limited, last_alert_of. rewrite Hlast.
    apply Qltb_iff in Hnear. rewrite Hnear. reflexivity.
  - intros t. unfold is_rate_limited, last_alert_of, record_emission.
    cbn [alert_cooldowns cooldown]. rewrite DictFacts.get_set_same.
    replace (Qltb (t - t) (inject_Z (cooldown ag))) with true; [reflexivity|].
    symmetry. apply Qltb_iff. rewrite Zlt_Qlt in Hcd. change (inject_Z 0) with 0%Q in Hcd. lra.
Qed.

Lemma cooldown_blocks_witness :
  (0 < cooldown (record_emission (init 5 300) "high" 1000))%Z /\
  Dict.get (alert_cooldowns (record_emission (init 5 300) "high" 1000)) "high" = Some 1000%Q /\
  (1100 - 1000 < inject_Z (cooldown (record_emission (init 5 300) "high" 1000)))%Q /\
  (snd (is_rate_limited (record_emission (init 5 300) "high" 1000) "high" 1100) = InCooldown /\
   (forall t, snd (is_rate_limited (record_emission (record_emission (init 5 300) "high" 1000) "high" t) "high" t) = InCooldown)).
Proof.
  split; [reflexivity|]. split; [reflexivity|]. split; [apply Qltb_iff; reflexivity|].
  apply (cooldown_blocks _ _ _ 1000); [reflexivity|reflexivity|apply Qltb_iff; reflexivity].
Defined.

(** C10 (as stated): an alert type never emitted before is admitted iff
    [now >= cooldown].  With [rate_limit = 0] the empty window already
    reaches the limit, and the first request at [now = 500 >= 300] is
    denied. *)
Lemma first_alert_admission_counterexample :
  Dict.get (alert_cooldowns (init 0 300)) "high" = None /\
  history_of (alert_history (init 0 300)) "high" = [] /\
  (inject_Z (cooldown (init 0 300)) <= 500)%Q /\
  snd (is_rate_limited (init 0 300) "high" 500) = RateLimitReached.
Proof.
  split; [reflexivity|]. split; [reflexivity|]. split; [apply Qle_bool_iff; reflexivity|].
  reflexivity.
Qed.

(** C10 (amended): for an alert type with no recorded emission, the
    missing last-emission time reads as 0: every check at [now < cooldown]
    is denied in the cooldown branch; when [rate_limit >= 1] the first
    request is admitted iff [now >= cooldown]; when [rate_limit <= 0] it is
    never admitted. *)
Theorem first_alert_admission (ag : AlertAgent) (c : string) (now : Q)
  (Hnever : Dict.get (alert_cooldowns ag) c = None)
  (Hempty : history_of (alert_history ag) c = []) :
  ((now < inject_Z (cooldown ag))%Q -> snd (is_rate_limited ag c now) = InCooldown) /\
  ((0 < rate_limit ag)%Z ->
   (snd (is_rate_limited ag c now) = NotLimited <-> (inject_Z (cooldown ag) <= now)%Q)) /\
  ((rate_limit ag <= 0)%Z -> snd (is_rate_limited ag c now) <> NotLimited).
Proof.
  unfold is_rate_limited, last_alert_of. rewrite Hnever, Hempty. cbn [List.filter length].
  split; [|split].
  - intros Hlt. replace (Qltb (now - 0) (inject_Z (cooldown ag))) with true; [reflexivity|].
    symmetry. apply Qltb_iff. lra.
  - intros Hrl. assert (Hz : (rate_limit ag <=? Z.of_nat 0)%Z = false) by (apply Z.leb_gt; simpl; lia).
    destruct (Qltb (now - 0) (inject_Z (cooldown ag))) eqn:E.
    + apply Qltb_iff in E. split; [discriminate|intros Hle; lra].
    + apply Qltb_false in E. rewrite Hz. split; [intros _; lra|reflexivity].
  - intros Hrl. assert (Hz : (rate_limit ag <=? Z.of_nat 0)%Z = true) by (apply Z.leb_le; simpl; lia).
    destruct (Qltb (now - 0) (inject_Z (cooldown ag))); [discriminate|].
    rewrite Hz. discriminate.
Qed.

Lemma first_alert_admission_witness :
  Dict.get (alert_cooldowns (init 0 300)) "high" = None /\
  history_of (alert_history (init 0 300)) "high" = [] /\
  (((500 < inject_Z (cooldown (init 0 300)))%Q -> snd (is_rate_limited (init 0 300) "high" 500) = InCooldown) /\
   ((0 < rate_limit (init 0 300))%Z ->
    (snd (is_rate_limited (init 0 300) "high" 500) = NotLimited <-> (inject_Z (cooldown (init 0 300)) <= 500)%Q)) /\
   ((rate_limit (init 0 300) <= 0)%Z -> snd (is_rate_limited (init 0 300) "high" 500) <> NotLimited)).
Proof.
  split; [reflexivity|]. split; [reflexivity|].
  apply first_alert_admission; reflexivity.
Defined.

(** C3 (as stated): once [rate_limit] emissions of a class lie in the
    window, the next check denies with reason [rate_limited].  With
    [rate_limit=2, cooldown=10], two successful dispatches at t=1000 and
    t=1010 put two timestamps in the window of t=1015, and the check at
    1015 denies in its cooldown branch instead. *)
Lemma window_full_denied_counterexample :
  status (snd first_send) = "success" /\
  status (snd second_send) = "success" /\
  (rate_limit (fst second_send) <=
   Z.of_nat (length (List.filter (fun t => Qltb (1015 - t) 60)
                       (history_of (alert_history (fst second_send)) "high"))))%Z /\
  snd (is_rate_limited (fst second_send) "high" 1015) = InCooldown.
Proof.
  split; [reflexivity|]. split; [reflexivity|]. split; [apply Z.leb_le; reflexivity|].
  reflexivity.
Qed.

(** C3 (amended): whenever the history of a class holds at least
    [rate_limit] timestamps less than 60 s before [now] (for instance after
    [rate_limit] successful dispatches in that window), the check at [now]
    denies.  It denies in the cooldown branch when [now] is less than
    [cooldown] seconds after the last emission, and in the rate-limit branch
    otherwise. *)
Theorem window_full_denied (ag : AlertAgent) (c : string) (now : Q)
  (Hfull : (rate_limit ag <=
            Z.of_nat (length (List.filter (fun t => Qltb (now - t) 60)
                                (history_of (alert_history ag) c))))%Z) :
  snd (is_rate_limited ag c now) =
  (if Qltb (now - last_alert_of ag c) (inject_Z (cooldown ag))
   then InCooldown else RateLimitReached).
Proof.
  unfold is_rate_limited.
  destruct (Qltb _ _); [reflexivity|].
  apply Z.leb_le in Hfull. rewrite Hfull. reflexivity.
Qed.

(** The spec's scenario: after dispatches at t=0 and t=10 with
    [rate_limit=2, cooldown=0], the third check at t=20 is rate limited. *)
Lemma window_full_denied_witness :
  (rate_limit spec_run <=
   Z.of_nat (length (List.filter (fun t => Qltb (20 - t) 60)
                       (history_of (alert_history spec_run) "high"))))%Z /\
  snd (is_rate_limited spec_run "high" 20) =
  (if Qltb (20 - last_alert_of spec_run "high") (inject_Z (cooldown spec_run))
   then InCooldown else RateLimitReached) /\
  snd (is_rate_limited spec_run "high" 20) = RateLimitReached.
Proof.
  split; [apply Z.leb_le; reflexivity|]. split.
  - apply window_full_denied. apply Z.leb_le; reflexivity.
  - reflexivity.
Defined.

(** C8 (as stated): a denial by the cooldown check is reported with status
    [cooldown_blocked].  A fresh default agent asked for a [high] alert at
    t=100 (less than 300 s after the default last time 0) denies in the
    cooldown branch, and [send_alert] reports [rate_limited]. *)
Lemma denied_dispatch_counterexample :
  snd (is_rate_limited (init 5 300) "high" 100) = InCooldown /\
  status (snd (send_alert (init 5 300) None (alert_for "high" flow) 100 100 "t")) = "rate_limited".
Proof. split; reflexivity. Qed.

(** C8 (amended): when the check denies, for either reason, [send_alert]
    returns status [rate_limited] and emits nothing.  The agent is left
    exactly as the check left it.  The cooldown table is unchanged, and a
    class's history only loses entries: nothing is appended. *)
Theorem denied_dispatch (ag : AlertAgent) (client : option (AnomalyData -> option string))
  (ad : AnomalyData) (t_check t_record : Q) (stamp : string)
  (Hden : limited (snd (is_rate_limited ag (ad_severity ad) t_check)) = true) :
  status (snd (send_alert ag client ad t_check t_record stamp)) = "rate_limited" /\
  fst (send_alert ag client ad t_check t_record stamp) = fst (is_rate_limited ag (ad_severity ad) t_check) /\
  alert_cooldowns (fst (send_alert ag client ad t_check t_record stamp)) = alert_cooldowns ag /\
  (forall c t, In t (history_of (alert_history (fst (send_alert ag client ad t_check t_record stamp))) c) ->
               In t (history_of (alert_history ag) c)).
Proof.
  pose proof (fst_is_rate_limited ag (ad_severity ad) t_check) as Hfst.
  unfold send_alert.
  destruct (is_rate_limited ag (ad_severity ad) t_check) as [ag1 v] eqn:E.
  simpl in Hden, Hfst. rewrite Hden. cbn [fst snd status].
  split; [reflexivity|]. split; [reflexivity|]. subst ag1.
  split; [reflexivity|].
  intros c t. cbn [with_history alert_history].
  destruct (String.eqb_spec c (ad_severity ad)) as [->|Hne].
  - rewrite history_of_set_same. intros Hin. apply filter_In in Hin. apply Hin.
  - unfold history_of. rewrite DictFacts.get_set_other by exact Hne. exact (fun H => H).
Qed.

Lemma denied_dispatch_witness :
  limited (snd (is_rate_limited (init 5 300) (ad_severity (alert_for "high" flow)) 100)) = true /\
  (status (snd (send_alert (init 5 300) None (alert_for "high" flow) 100 100 "t")) = "rate_limited" /\
   fst (send_alert (init 5 300) None (alert_for "high" flow) 100 100 "t") =
     fst (is_rate_limited (init 5 300) (ad_severity (alert_for "high" flow)) 100) /\
   alert_cooldowns (fst (send_alert (init 5 300) None (alert_for "high" flow) 100 100 "t")) =
     alert_cooldowns (init 5 300) /\
   (forall c t, In t (history_of (alert_history (fst (send_alert (init 5 300) None (alert_for "high" flow) 100 100 "t"))) c) ->
                In t (history_of (alert_history (init 5 300)) c))).
Proof. split; [reflexivity|]. apply denied_dispatch. reflexivity. Defined.

(* ================================================================== *)
(** * Housekeeping of the alert history *)

Definition recent_enough (now : Q) (l : list Q) : Prop :=
  l <> [] /\ (forall t, In t l -> (now - t < 3600)%Q).

Lemma cleanup_loop_invariant (ks : list string) : forall h now alert_type,
  NoDup (Dict.keys h) ->
  (forall k l, In (k, l) h -> In k ks \/ recent_enough now l) ->
  NoDup (Dict.keys (fst (cleanup_loop ks h now alert_type))) /\
  (forall k l, In (k, l) (fst (cleanup_loop ks h now alert_type)) -> recent_enough now l).
Proof.
  induction ks as [|k rest IH]; intros h now alert_type Hnd Hinv; simpl.
  - split; [exact Hnd|]. intros k l Hin. destruct (Hinv k l Hin) as [[]|G]. exact G.
  - assert (Hold : forall k' l', k' <> k -> In (k', l') h -> In k' rest \/ recent_enough now l').
    { intros k' l' Hne Hin. destruct (Hinv k' l' Hin) as [[Heq|Hr]|G].
      - subst. contradiction Hne. reflexivity.
      - left. exact Hr.
      - right. exact G. }
    destruct (List.filter (fun t => Qltb (now - t) 3600) (history_of h k)) as [|x xs] eqn:Ek.
    + apply IH.
      * apply DictFacts.nodup_del, DictFacts.nodup_set, Hnd.
      * intros k' l' Hin.
        destruct (DictFacts.in_del _ _ _ _ (DictFacts.nodup_set _ _ _ Hnd) Hin) as [Hne Hin'].
        destruct (DictFacts.in_set _ _ _ _ _ Hnd Hin') as [[Heq _]|[_ Hin'']].
        { contradiction. }
        apply (Hold k' l' Hne Hin'').
    + apply IH.
      * apply DictFacts.nodup_set, Hnd.
      * intros k' l' Hin.
        destruct (DictFacts.in_set _ _ _ _ _ Hnd Hin) as [[-> ->]|[Hne Hin']].
        { right. split; [discriminate|]. intros t Ht. rewrite <- Ek in Ht.
          apply filter_In in Ht. apply Qltb_iff, Ht. }
        apply (Hold k' l' Hne Hin').
Qed.

(** C6: after the housekeeping loop of [send_alert] at time [now], every
    alert type left in [alert_history] has a non-empty list, and every
    timestamp kept is less than 3600 s before [now]: types whose list
    became empty are deleted.  The keys stay distinct. *)
Theorem cleanup_history_bounded (h : Dict.dict (list Q)) (now : Q) (alert_type : string)
  (Hnd : NoDup (Dict.keys h)) :
  NoDup (Dict.keys (fst (cleanup_history h now alert_type))) /\
  (forall k l, In (k, l) (fst (cleanup_history h now alert_type)) ->
     l <> [] /\ (forall t, In t l -> (now - t < 3600)%Q)).
Proof.
  apply cleanup_loop_invariant; [exact Hnd|].
  intros k l Hin. left. apply (in_map fst _ _ Hin).
Qed.

Lemma cleanup_history_bounded_witness :
  NoDup (Dict.keys [("high", [0%Q; 5000%Q]); ("medium", [100%Q])]) /\
  (NoDup (Dict.keys (fst (cleanup_history [("high", [0%Q; 5000%Q]); ("medium", [100%Q])] 5000 "high"))) /\
   (forall k l, In (k, l) (fst (cleanup_history [("high", [0%Q; 5000%Q]); ("medium", [100%Q])] 5000 "high")) ->
      l <> [] /\ (forall t, In t l -> (5000 - t < 3600)%Q))).
Proof.
  assert (Hnd : NoDup (Dict.keys [("high", [0%Q; 5000%Q]); ("medium", [100%Q])])).
  { simpl. constructor; [simpl; intros [H|[]]; discriminate|].
    constructor; [intros []|constructor]. }
  split; [exact Hnd|]. apply cleanup_history_bounded. exact Hnd.
Defined.

(* ================================================================== *)
(** * Severity of a score *)

Lemma detect_anomaly_with_verdict severe mild scaler decision_function ag client
    t_check t_record stamp stamp_alert data ag' r :
  detect_anomaly_with severe mild scaler decision_function ag client
    t_check t_record stamp stamp_alert data = Ok (ag', r) ->
  (is_anomaly r, severity r) = score_verdict severe mild (anomaly_score r).
Proof.
  unfold detect_anomaly_with.
  destruct (preprocess_data _ _ _) as [processed|e]; [|discriminate].
  destruct (decision_function processed) as [score|e]; [|discriminate].
  destruct (score_verdict severe mild score) as [anom sev] eqn:E.
  destruct anom; intros H; inversion H; subst; simpl; rewrite E; reflexivity.
Qed.

(** C1: with thresholds [severe < mild], the result [detect_anomaly]
    returns has severity [high] iff [score < severe], [medium] iff
    [severe <= score < mild], [low] iff [score >= mild] (a score equal to a
    threshold falls in the less severe band), and [is_anomaly] iff
    [score < mild].  [detect_anomaly] itself uses the doubles -0.15 and -0.05. *)
Theorem detect_anomaly_severity_bands (severe mild : Q) scaler decision_function ag client
    t_check t_record stamp stamp_alert data ag' r
  (Hth : (severe < mild)%Q)
  (Hrun : detect_anomaly_with severe mild scaler decision_function ag client
            t_check t_record stamp stamp_alert data = Ok (ag', r)) :
  (severity r = "high" <-> (anomaly_score r < severe)%Q) /\
  (severity r = "medium" <-> (severe <= anomaly_score r)%Q /\ (anomaly_score r < mild)%Q) /\
  (severity r = "low" <-> (mild <= anomaly_score r)%Q) /\
  (is_anomaly r = true <-> (anomaly_score r < mild)%Q).
Proof.
  apply detect_anomaly_with_verdict in Hrun. unfold score_verdict in Hrun.
  destruct r as [anom score sev ts fs]; cbn [is_anomaly severity anomaly_score] in *.
  destruct (Qltb score severe) eqn:E1; destruct (Qltb score mild) eqn:E2;
    inversion Hrun; subst;
    repeat match goal with
    | H : Qltb _ _ = true |- _ => apply Qltb_iff in H
    | H : Qltb _ _ = false |- _ => apply Qltb_false in H
    end;
    repeat split; intros; try discriminate; try reflexivity; try lra;
    try (exfalso; lra); try (match goal with H : _ /\ _ |- _ => destruct H end; exfalso; lra).
Qed.

Lemma detect_anomaly_severity_bands_witness :
  (SEVERE_THRESHOLD < MILD_THRESHOLD)%Q /\
  detect_anomaly None (fun _ => Ok (-20 # 100)%Q) (init 5 300) None 1000 1000
    "2026-10-17T12:00:00" "t" flow =
    Ok (fst (send_alert (init 5 300) None (alert_for "high" flow) 1000 1000 "t"),
        mkResult true (-20 # 100)%Q "high" "2026-10-17T12:00:00" flow) /\
  (("high" = "high" <-> (-20 # 100 < SEVERE_THRESHOLD)%Q) /\
   ("high" = "medium" <-> (SEVERE_THRESHOLD <= -20 # 100)%Q /\ (-20 # 100 < MILD_THRESHOLD)%Q) /\
   ("high" = "low" <-> (MILD_THRESHOLD <= -20 # 100)%Q) /\
   (true = true <-> (-20 # 100 < MILD_THRESHOLD)%Q)).
Proof.
  assert (Hth : (SEVERE_THRESHOLD < MILD_THRESHOLD)%Q) by (apply Qltb_iff; reflexivity).
  assert (Hrun : detect_anomaly None (fun _ => Ok (-20 # 100)%Q) (init 5 300) None 1000 1000
    "2026-10-17T12:00:00" "t" flow =
    Ok (fst (send_alert (init 5 300) None (alert_for "high" flow) 1000 1000 "t"),
        mkResult true (-20 # 100)%Q "high" "2026-10-17T12:00:00" flow)) by (vm_compute; reflexivity).
  split; [exact Hth|]. split; [exact Hrun|].
  exact (detect_anomaly_severity_bands _ _ _ _ _ _ _ _ _ _ _ _ _ Hth Hrun).
Defined.

(** The spec's three scores under the default thresholds. *)
(** At the scores -0.2, -0.1, -0.05 and -0.15 (as doubles); the last two
    are the thresholds themselves, which fall in the milder band. *)
Example default_thresholds :
  map (score_verdict SEVERE_THRESHOLD MILD_THRESHOLD)
    [(-3602879701896397 # 18014398509481984)%Q; (-3602879701896397 # 36028797018963968)%Q;
     MILD_THRESHOLD; SEVERE_THRESHOLD]
  = [(true, "high"); (true, "medium"); (false, "low"); (true, "medium")].
Proof. reflexivity. Qed.

(* ================================================================== *)
(** * The fallback alert text *)

Section PyvalInd.
Variable P : pyval -> Prop.
Hypothesis HNone : P PNone.
Hypothesis HBool : forall b, P (PBool b).
Hypothesis HInt : forall z, P (PInt z).
Hypothesis HFloat : forall f, P (PFloat f).
Hypothesis HStr : forall s, P (PStr s).
Hypothesis HList : forall l, Forall P l -> P (PList l).
Hypothesis HDict : forall kv, Forall (fun p => P (snd p)) kv -> P (PDict kv).
Hypothesis HOpaque : forall s, P (POpaque s).

End PyvalInd.









(** The fallback text for a concrete record. *)
Example fallback_text :
  generate_alert_message None (alert_for "high" flow) =
  Ok ("SECURITY ALERT - HIGH SEVERITY" ++ nl ++ "Time: 2026-10-17T12:00:00" ++ nl
      ++ "Anomaly Score: -0.2000" ++ nl ++ "Details: {" ++ nl ++ "  "
      ++ dquote ++ "Flow Duration" ++ dquote ++ ": 5" ++ nl ++ "}").
Proof. reflexivity. Qed.

(* ================================================================== *)
(** * The vectorizer *)

Lemma vectorize_length (schema : list string) (data : list (string * pyval)) row ws :
  vectorize schema data = Ok (row, ws) -> length row = length schema.
Proof.
  unfold vectorize. destruct (update_loop _ _ _) as [[pd ws']|e]; [|discriminate].
  intros H. inversion H; subst. unfold select_columns. apply length_map.
Qed.

(** The spec's example: schema [a; b; c], record {a: "5", b: "bad", d: 9}. *)
Example vectorize_spec_example :
  vectorize ["a"; "b"; "c"] [("a", PStr "5"); ("b", PStr "bad"); ("d", PInt 9)] =
  Ok ([Fin 5; Fin 0; Fin 0], [CouldNotConvert "b"; IgnoringUnknown "d"]).
Proof. reflexivity. Qed.

Lemma vectorize_int_overflow :
  vectorize feature_names [("Flow Duration", PInt (10 ^ 400))] = Raise OverflowError.
Proof. vm_compute. reflexivity. Qed.

(** C2: [float()] of an integer beyond the float range raises
    [OverflowError], which the [except (ValueError, TypeError)] around it
    does not catch.  A record with such a value (a JSON body with a
    400-digit integer) makes [preprocess_data], and so [detect_anomaly],
    raise instead of putting 0.0 in the slot. *)
Theorem preprocess_data_int_overflow scaler decision_function ag client
    t_check t_record stamp stamp_alert :
  py_float (PInt (10 ^ 400)) = Raise OverflowError /\
  preprocess_data scaler feature_names [("Flow Duration", PInt (10 ^ 400))] = Raise OverflowError /\
  detect_anomaly scaler decision_function ag client t_check t_record stamp stamp_alert
    [("Flow Duration", PInt (10 ^ 400))] = Raise OverflowError.
Proof.
  assert (Hpre : preprocess_data scaler feature_names [("Flow Duration", PInt (10 ^ 400))]
                 = Raise OverflowError)
    by (unfold preprocess_data; rewrite vectorize_int_overflow; reflexivity).
  split; [vm_compute; reflexivity|]. split; [exact Hpre|].
  unfold detect_anomaly, detect_anomaly_with. rewrite Hpre. reflexivity.
Qed.

(* ================================================================== *)
(** * The record [send_alert] returns after an emission *)

(** C9: with a [high] and a [medium] history, dispatching a [high] alert
    records it under [high] but reports [medium]: the history loop reuses
    [alert_type] as its loop variable, which ends on the last key. *)
Theorem send_alert_reports_last_key :
  status (snd mixed_3) = "success" /\
  history_of (alert_history (fst mixed_3)) "high" = [1400%Q] /\
  Dict.get (alert_cooldowns (fst mixed_3)) "high" = Some 1400%Q /\
  Dict.keys (alert_history (fst mixed_3)) = ["high"; "medium"] /\
  alert_type_field (snd mixed_3) = Some "medium" /\
  message (snd mixed_3) = "Alert generated and sent (Type: medium)".
Proof. vm_compute. repeat split. Qed.

(* ================================================================== *)
(** * Splitting and stripping text *)

Lemma split_on_not_nil (p : ascii -> bool) (s : string) : split_on p s <> [].
Proof.
  induction s as [|c r IH]; simpl; [discriminate|].
  destruct (p c); [discriminate|]. destruct (split_on p r); discriminate.
Qed.

Lemma split_on_app (p : ascii -> bool) (a b : string) (c : ascii) :
  p c = true -> split_on p (a ++ String c b) = (split_on p a ++ split_on p b)%list.
Proof.
  intros Hc. induction a as [|x r IH]; simpl.
  - rewrite Hc. reflexivity.
  - destruct (p x); [rewrite IH; reflexivity|].
    rewrite IH. destruct (split_on p r) as [|y ys] eqn:E; [exfalso; exact (split_on_not_nil p r E)|].
    reflexivity.
Qed.

Lemma split_on_chars (p : ascii -> bool) (s : string) :
  forall x, In x (split_on p s) -> all_chars (fun c => negb (p c)) x = true.
Proof.
  induction s as [|c r IH]; simpl; intros x Hx.
  - destruct Hx as [<-|[]]. reflexivity.
  - destruct (p c) eqn:Hc.
    + destruct Hx as [<-|Hx]; [reflexivity|exact (IH x Hx)].
    + destruct (split_on p r) as [|y ys] eqn:E; [exfalso; exact (split_on_not_nil p r E)|].
      destruct Hx as [<-|Hx].
      * simpl. rewrite Hc. apply IH. left; reflexivity.
      * apply IH. right; exact Hx.
Qed.

Lemma split_on_lengths (p : ascii -> bool) (s : string) :
  sum_lengths (split_on p s) + length (split_on p s) = String.length s + 1.
Proof.
  unfold sum_lengths. induction s as [|c r IH]; simpl; [reflexivity|].
  destruct (p c); simpl; [lia|].
  destruct (split_on p r) as [|y ys] eqn:E; [exfalso; exact (split_on_not_nil p r E)|].
  simpl in *. lia.
Qed.

Lemma nonempty_words_bound (l : list string) :
  let w := List.filter (fun x => negb (String.eqb x EmptyString)) l in
  length w <= length l /\ length w <= sum_lengths l.
Proof.
  unfold sum_lengths. induction l as [|x r IH]; simpl; [lia|].
  destruct x as [|c x']; simpl in *; lia.
Qed.

Lemma all_chars_lstrip (p : ascii -> bool) (s : string) :
  all_chars p s = true -> all_chars p (str_lstrip s) = true.
Proof.
  induction s as [|c r IH]; simpl; [tauto|].
  intros H. apply andb_true_iff in H as [H1 H2].
  destruct (py_isspace c); [exact (IH H2)|simpl; rewrite H1, H2; reflexivity].
Qed.

Lemma all_chars_rstrip (p : ascii -> bool) (s : string) :
  all_chars p s = true -> all_chars p (str_rstrip s) = true.
Proof.
  induction s as [|c r IH]; simpl; [tauto|].
  intros H. apply andb_true_iff in H as [H1 H2]. specialize (IH H2).
  destruct (str_rstrip r) as [|c' r'].
  - destruct (py_isspace c); simpl; [reflexivity|rewrite H1; reflexivity].
  - simpl in *. rewrite H1, IH. reflexivity.
Qed.

Lemma lstrip_idem (s : string) : str_lstrip (str_lstrip s) = str_lstrip s.
Proof.
  induction s as [|c r IH]; simpl; [reflexivity|].
  destruct (py_isspace c) eqn:E; [exact IH|simpl; rewrite E; reflexivity].
Qed.

Lemma rstrip_idem (s : string) : str_rstrip (str_rstrip s) = str_rstrip s.
Proof.
  induction s as [|c r IH]; simpl; [reflexivity|].
  destruct (str_rstrip r) as [|c' r'] eqn:E.
  - destruct (py_isspace c) eqn:Hc; simpl; [reflexivity|rewrite Hc; reflexivity].
  - simpl. simpl in IH. rewrite IH. reflexivity.
Qed.

Lemma lstrip_head (s : string) :
  str_lstrip s = EmptyString \/ exists c r, str_lstrip s = String c r /\ py_isspace c = false.
Proof.
  induction s as [|c r IH]; simpl; [left; reflexivity|].
  destruct (py_isspace c) eqn:E; [exact IH|right; exists c, r; split; [reflexivity|exact E]].
Qed.

Lemma rstrip_head (c : ascii) (r : string) :
  py_isspace c = false -> exists r', str_rstrip (String c r) = String c r'.
Proof.
  intros Hc. simpl. destruct (str_rstrip r) as [|c' r'].
  - rewrite Hc. exists EmptyString. reflexivity.
  - exists (String c' r'). reflexivity.
Qed.

Lemma strip_idem (s : string) : str_strip (str_strip s) = str_strip s.
Proof.
  unfold str_strip. destruct (lstrip_head s) as [->|[c [r [-> Hc]]]]; [reflexivity|].
  destruct (rstrip_head c r Hc) as [r' Hr]. rewrite Hr. simpl. rewrite Hc.
  rewrite <- Hr. apply rstrip_idem.
Qed.

Lemma strip_head (s : string) :
  str_strip s = EmptyString \/ exists c r, str_strip s = String c r /\ py_isspace c = false.
Proof.
  unfold str_strip. destruct (lstrip_head s) as [->|[c [r [-> Hc]]]]; [left; reflexivity|].
  right. destruct (rstrip_head c r Hc) as [r' Hr]. exists c, r'. split; [exact Hr|exact Hc].
Qed.

Lemma words_of_stripped (line : string) :
  line <> EmptyString -> str_strip line = line ->
  1 <= length (split_words line) /\ 2 * length (split_words line) <= String.length line + 1.
Proof.
  intros Hne Hs. split.
  - destruct (strip_head line) as [H|[c [r [H Hc]]]]; [congruence|]. rewrite Hs in H. subst line.
    unfold split_words. simpl. rewrite Hc.
    destruct (split_on py_isspace r) as [|y ys] eqn:E; [exfalso; exact (split_on_not_nil _ r E)|].
    simpl. lia.
  - unfold split_words. pose proof (split_on_lengths py_isspace line).
    destruct (nonempty_words_bound (split_on py_isspace line)) as [H1 H2]. lia.
Qed.

(** [text_to_dataframe] keeps one row per line of the text that holds a
    non-whitespace character.  Each row's [text] is that line stripped: it
    is non-empty, has no whitespace at either end and no newline inside.
    The row's [length] is the length of its [text].  Its [word_count] is
    at least 1, and at most half of [length + 1], since the words are
    separated by whitespace. *)
Theorem text_to_dataframe_rows (text : string) (i : nat) (line : string)
  (Hrow : nth_error (col_text (text_to_dataframe text)) i = Some line) :
  line <> EmptyString /\ str_strip line = line /\
  all_chars (fun c => negb (is_newline c)) line = true /\
  nth_error (col_length (text_to_dataframe text)) i = Some (String.length line) /\
  nth_error (col_word_count (text_to_dataframe text)) i = Some (length (split_words line)) /\
  1 <= length (split_words line) /\ 2 * length (split_words line) <= String.length line + 1.
Proof.
  unfold text_to_dataframe in *. cbn [col_text col_length col_word_count] in *.
  assert (Hin := nth_error_In _ _ Hrow).
  apply in_map_iff in Hin as [piece [Hpiece Hin]].
  apply filter_In in Hin as [Hsplit Hkeep].
  assert (Hne : line <> EmptyString).
  { subst line. intros H. rewrite H in Hkeep. discriminate. }
  assert (Hst : str_strip line = line) by (subst line; apply strip_idem).
  split; [exact Hne|]. split; [exact Hst|]. split.
  { subst line. unfold str_strip. apply all_chars_rstrip, all_chars_lstrip.
    exact (split_on_chars _ _ _ Hsplit). }
  split; [rewrite nth_error_map, Hrow; reflexivity|].
  split; [rewrite nth_error_map, Hrow; reflexivity|].
  apply words_of_stripped; assumption.
Qed.

Lemma text_to_dataframe_rows_witness :
  nth_error (col_text (text_to_dataframe ("  hello  world" ++ nl ++ "x"))) 0 = Some "hello  world" /\
  ("hello  world" <> EmptyString /\ str_strip "hello  world" = "hello  world" /\
   all_chars (fun c => negb (is_newline c)) "hello  world" = true /\
   nth_error (col_length (text_to_dataframe ("  hello  world" ++ nl ++ "x"))) 0 =
     Some (String.length "hello  world") /\
   nth_error (col_word_count (text_to_dataframe ("  hello  world" ++ nl ++ "x"))) 0 =
     Some (length (split_words "hello  world")) /\
   1 <= length (split_words "hello  world") /\
   2 * length (split_words "hello  world") <= String.length "hello  world" + 1).
Proof.
  split; [vm_compute; reflexivity|].
  apply text_to_dataframe_rows. vm_compute. reflexivity.
Defined.

(** Splitting a text at one of its newlines splits its DataFrame: the rows
    of [a ++ newline ++ b] are the rows of [a] followed by those of [b], in
    all three columns.  No row ever spans a newline. *)
Theorem text_to_dataframe_concat (a b : string) :
  text_to_dataframe (a ++ nl ++ b) =
  mkFrame (col_text (text_to_dataframe a) ++ col_text (text_to_dataframe b))
          (col_length (text_to_dataframe a) ++ col_length (text_to_dataframe b))
          (col_word_count (text_to_dataframe a) ++ col_word_count (text_to_dataframe b)).
Proof.
  unfold text_to_dataframe, split_lines, nl, char. simpl.
  rewrite split_on_app by reflexivity.
  rewrite filter_app, !map_app. reflexivity.
Qed.

(* ================================================================== *)
(** * Missing values before scoring *)

Lemma last_present_from_present (l : list pyfloat) : forall acc v,
  (forall w, acc = Some w -> is_na w = false) ->
  last_present_from acc l = Some v -> is_na v = false.
Proof.
  induction l as [|x r IH]; simpl; intros acc v Hacc H.
  - exact (Hacc v H).
  - refine (IH _ _ _ H). intros w Hw. destruct (is_na x) eqn:E; [exact (Hacc w Hw)|].
    inversion Hw; subst. exact E.
Qed.

Lemma ffill_nth (xs : list pyfloat) : forall last i x,
  nth_error xs i = Some x ->
  nth_error (ffill last xs) i =
  Some (if is_na x then match last_present_from last (firstn i xs) with Some v => v | None => x end
        else x).
Proof.
  induction xs as [|y r IH]; intros last i x H; [destruct i; discriminate|].
  destruct i as [|i]; simpl in H |- *.
  - inversion H; subst. destruct (is_na x) eqn:E; simpl; [destruct last; reflexivity|reflexivity].
  - destruct (is_na y); simpl; apply IH; exact H.
Qed.

Lemma ffill_length (xs : list pyfloat) : forall last, length (ffill last xs) = length xs.
Proof. induction xs as [|y r IH]; intros last; simpl; [reflexivity|destruct (is_na y); simpl; rewrite IH; reflexivity]. Qed.

Lemma fill_values (xs : list pyfloat) (i : nat) (x : pyfloat) :
  nth_error xs i = Some x ->
  nth_error (fillna0 (ffill None xs)) i =
  Some (if is_na x then match last_present (firstn i xs) with Some v => v | None => Fin 0 end else x).
Proof.
  intros H. unfold fillna0. rewrite nth_error_map, (ffill_nth _ None _ _ H). simpl.
  unfold last_present. destruct (is_na x) eqn:E.
  - destruct (last_present_from None (firstn i xs)) as [v|] eqn:Ev; simpl.
    + assert (Hnone : forall w, @None pyfloat = Some w -> is_na w = false) by discriminate.
      rewrite (last_present_from_present _ _ _ Hnone Ev). reflexivity.
    + rewrite E. reflexivity.
  - simpl. rewrite E. reflexivity.
Qed.

Lemma fill_no_na (xs : list pyfloat) : forall y, In y (fillna0 (ffill None xs)) -> is_na y = false.
Proof.
  intros y Hy. unfold fillna0 in Hy. apply in_map_iff in Hy as [x [<- _]].
  destruct (is_na x) eqn:E; [reflexivity|exact E].
Qed.

(** [preprocess_input] keeps exactly the int and float columns, in their
    order and under their names; bool and object columns are dropped.  An
    int column is kept as it is, and no float column it returns holds a
    missing value. *)
Theorem preprocess_input_columns (df : frame) :
  map fst (preprocess_input df) = map fst (List.filter (fun nc => is_number (snd nc)) df) /\
  (forall name c, In (name, c) (preprocess_input df) ->
     match c with
     | FloatCol ys => forall y, In y ys -> is_na y = false
     | IntCol zs => In (name, IntCol zs) df
     | _ => False
     end).
Proof.
  unfold preprocess_input. split.
  - rewrite map_map. apply map_ext. intros [n c]. reflexivity.
  - intros name c Hin. apply in_map_iff in Hin as [[n c0] [Heq Hin]].
    inversion Heq; subst. apply filter_In in Hin as [Hin Hnum].
    destruct c0 as [xs|zs|bs|vs]; simpl in *; try discriminate.
    + exact (fill_no_na xs).
    + exact Hin.
Qed.

(** In a float column, [preprocess_input] keeps every present value, and
    replaces a missing one by the last present value above it in the
    column, or by 0.0 when there is none.  The column keeps its length. *)
Theorem preprocess_input_fill (xs : list pyfloat) :
  length (fillna0 (ffill None xs)) = length xs /\
  (forall i x, nth_error xs i = Some x ->
     nth_error (fillna0 (ffill None xs)) i =
     Some (if is_na x then match last_present (firstn i xs) with Some v => v | None => Fin 0 end
           else x)) /\
  (forall name df, In (name, FloatCol xs) df ->
     In (name, FloatCol (fillna0 (ffill None xs))) (preprocess_input df)).
Proof.
  split; [unfold fillna0; rewrite length_map; apply ffill_length|].
  split; [exact (fill_values xs)|].
  intros name df Hin. unfold preprocess_input. apply in_map_iff.
  exists (name, FloatCol xs). split; [reflexivity|]. apply filter_In. split; [exact Hin|reflexivity].
Qed.

(** The rows of [preprocess_input] on one column. *)
Example preprocess_input_example :
  preprocess_input [("a", FloatCol [NaN; Fin 1; NaN; Inf true; NaN]); ("flag", BoolCol [true; false; true; true; false]);
                    ("n", IntCol [3%Z; 4%Z; 5%Z; 6%Z; 7%Z])] =
  [("a", FloatCol [Fin 0; Fin 1; Fin 1; Inf true; Inf true]); ("n", IntCol [3%Z; 4%Z; 5%Z; 6%Z; 7%Z])].
Proof. reflexivity. Qed.

(* ================================================================== *)
(** * The upload dashboard's result store *)

Lemma get_map_values {V} (g : V -> V) (d : Dict.dict V) (k : string) :
  Dict.get (map (fun '(k', v) => (k', g v)) d) k = option_map g (Dict.get d k).
Proof.
  induction d as [|[k' v] r IH]; simpl; [reflexivity|].
  destruct (String.eqb k k'); [reflexivity|exact IH].
Qed.

Lemma nth_error_clean_rows (rows : list Row) : forall i stamps j,
  nth_error (clean_rows i stamps rows) j = option_map (clean_row (stamps (i + j))) (nth_error rows j).
Proof.
  induction rows as [|r rest IH]; intros i stamps j; [destruct j; reflexivity|].
  destruct j as [|j]; simpl; [rewrite Nat.add_0_r; reflexivity|].
  rewrite IH. replace (S i + j) with (i + S j) by lia. reflexivity.
Qed.

Lemma clean_rows_scores (rows : list Row) : forall i stamps,
  map row_score (clean_rows i stamps rows) = map row_score rows.
Proof. induction rows as [|r rest IH]; intros i stamps; simpl; [reflexivity|rewrite IH; reflexivity]. Qed.

Lemma strongly_sorted_app {A} (R : A -> A -> Prop) (l1 l2 : list A) :
  StronglySorted R (l1 ++ l2) -> forall a b, In a l1 -> In b l2 -> R a b.
Proof.
  induction l1 as [|x r IH]; simpl; [intros _ a b []|].
  intros H. apply StronglySorted_inv in H as [H1 H2].
  intros a b [<-|Ha] Hb.
  - rewrite Forall_forall in H2. apply H2. apply in_or_app. right; exact Hb.
  - exact (IH H1 a b Ha Hb).
Qed.

(** An upload puts in [RESULTS] the 50 records of greatest [score] (all of
    them when there are fewer): with [sorted] a descending order of the
    merged records, the records kept have a score at least that of every
    record left out.  Since [score_samples] is higher for less abnormal
    points, these are the least abnormal records of the file.  They go in
    front of the first 100 older results. *)
Theorem score_csv_keeps_highest_scores (merged sorted : list Row) (stamps : nat -> string)
  (results : list Row)
  (Hperm : Permutation merged sorted)
  (Hsorted : Sorted (fun a b => (row_score b <= row_score a)%Q) sorted) :
  exists top rest,
    Permutation merged (top ++ rest) /\ length top = Nat.min 50 (length merged) /\
    fst (score_csv_update merged sorted stamps results) = (clean_rows 0 stamps top ++ firstn 100 results)%list /\
    (forall a b, In a top -> In b rest -> (row_score b <= row_score a)%Q).
Proof.
  exists (firstn 50 sorted), (skipn 50 sorted).
  split; [rewrite firstn_skipn; exact Hperm|].
  split; [rewrite length_firstn, (Permutation_length Hperm); reflexivity|].
  split; [reflexivity|].
  apply strongly_sorted_app. rewrite firstn_skipn.
  apply Sorted_StronglySorted; [|exact Hsorted].
  intros x y z Hxy Hyz. lra.
Qed.

Lemma score_csv_keeps_highest_scores_witness :
  Permutation [row_at (-6 # 10); row_at (-4 # 10)] [row_at (-4 # 10); row_at (-6 # 10)] /\
  Sorted (fun a b => (row_score b <= row_score a)%Q) [row_at (-4 # 10); row_at (-6 # 10)] /\
  (exists top rest,
    Permutation [row_at (-6 # 10); row_at (-4 # 10)] (top ++ rest) /\
    length top = Nat.min 50 (length [row_at (-6 # 10); row_at (-4 # 10)]) /\
    fst (score_csv_update [row_at (-6 # 10); row_at (-4 # 10)] [row_at (-4 # 10); row_at (-6 # 10)]
           (fun _ => "2026-10-17T12:00:00") []) = (clean_rows 0 (fun _ => "2026-10-17T12:00:00") top ++ firstn 100 [])%list /\
    (forall a b, In a top -> In b rest -> (row_score b <= row_score a)%Q)).
Proof.
  assert (Hp : Permutation [row_at (-6 # 10); row_at (-4 # 10)] [row_at (-4 # 10); row_at (-6 # 10)])
    by apply perm_swap.
  assert (Hs : Sorted (fun a b => (row_score b <= row_score a)%Q) [row_at (-4 # 10); row_at (-6 # 10)]).
  { repeat constructor. simpl. apply Qle_bool_iff. reflexivity. }
  split; [exact Hp|]. split; [exact Hs|].
  exact (score_csv_keeps_highest_scores _ _ _ _ Hp Hs).
Defined.

(** The records an upload adds to [RESULTS] are the first 50 of the sorted
    records, in that order.  Each keeps its score and gets the
    [_timestamp] read for it.  Its other cells are kept, except that a NaN
    becomes [None]: no record added holds a NaN. *)
Theorem score_csv_cleans_rows (merged sorted : list Row) (stamps : nat -> string)
  (results : list Row) (j : nat) (r : Row)
  (Hj : j < 50) (Hr : nth_error sorted j = Some r) :
  exists r',
    nth_error (fst (score_csv_update merged sorted stamps results)) j = Some r' /\
    row_score r' = row_score r /\
    Dict.get (row_cells r') "_timestamp" = Some (PStr (stamps j)) /\
    (forall k, k <> "_timestamp" -> Dict.get (row_cells r') k = option_map none_if_nan (Dict.get (row_cells r) k)) /\
    (forall k v, In (k, v) (row_cells r') -> v <> PFloat NaN).
Proof.
  assert (Hfj : nth_error (firstn 50 sorted) j = Some r) by (rewrite nth_error_firstn; destruct (Nat.ltb_spec j 50); [exact Hr|lia]).
  assert (Hc : nth_error (clean_rows 0 stamps (firstn 50 sorted)) j = Some (clean_row (stamps j) r))
    by (rewrite nth_error_clean_rows, Hfj; reflexivity).
  exists (clean_row (stamps j) r). split.
  { unfold score_csv_update. cbn [fst]. rewrite nth_error_app1; [exact Hc|].
    apply nth_error_Some. rewrite Hc. discriminate. }
  unfold clean_row. cbn [row_score row_cells]. split; [reflexivity|].
  split; [rewrite get_map_values, DictFacts.get_set_same; reflexivity|].
  split; [intros k Hk; rewrite get_map_values, DictFacts.get_set_other by exact Hk; reflexivity|].
  intros k v Hin. apply in_map_iff in Hin as [[k0 v0] [Heq _]]. inversion Heq; subst.
  destruct v0 as [| | |[]| | | |]; discriminate.
Qed.

Lemma score_csv_cleans_rows_witness :
  0 < 50 /\ nth_error [row_at (-4 # 10); row_at (-6 # 10)] 0 = Some (row_at (-4 # 10)) /\
  (exists r',
    nth_error (fst (score_csv_update [row_at (-6 # 10); row_at (-4 # 10)] [row_at (-4 # 10); row_at (-6 # 10)]
                      (fun _ => "2026-10-17T12:00:00") [])) 0 = Some r' /\
    row_score r' = row_score (row_at (-4 # 10)) /\
    Dict.get (row_cells r') "_timestamp" = Some (PStr ((fun _ => "2026-10-17T12:00:00") 0)) /\
    (forall k, k <> "_timestamp" -> Dict.get (row_cells r') k = option_map none_if_nan (Dict.get (row_cells (row_at (-4 # 10))) k)) /\
    (forall k v, In (k, v) (row_cells r') -> v <> PFloat NaN)).
Proof.
  split; [lia|]. split; [reflexivity|].
  apply score_csv_cleans_rows; [lia|reflexivity].
Defined.

Lemma results_step_length (merged sorted : list Row) stamps (results : list Row) :
  length (fst (score_csv_update merged sorted stamps results)) <= 150.
Proof.
  unfold score_csv_update. cbn [fst]. rewrite length_app, length_firstn.
  assert (Hc : forall i l, length (clean_rows i stamps l) = length l)
    by (intros i l; revert i; induction l as [|x r IH]; intros i; simpl; [reflexivity|rewrite IH; reflexivity]).
  rewrite Hc, length_firstn. lia.
Qed.

Lemma fold_results_length (ups : list Upload) : forall acc,
  length acc <= 150 ->
  length (fold_left (fun res u => fst (score_csv_update (up_merged u) (up_sorted u) (up_stamps u) res)) ups acc) <= 150.
Proof.
  induction ups as [|u rest IH]; intros acc H; cbn [fold_left]; [exact H|]. apply IH. apply results_step_length.
Qed.

(** Whatever the uploads, [RESULTS] never holds more than 150 records: each
    upload adds at most 50 and keeps at most 100 older ones.  The bound is
    reached: three uploads of 60 records leave 150, not the 100 the
    comment on the update line speaks of. *)
Theorem results_bounded (ups : list Upload) :
  length (results_after ups) <= 150 /\
  length (results_after [full_upload; full_upload; full_upload]) = 150.
Proof.
  split; [apply fold_results_length; simpl; lia|vm_compute; reflexivity].
Qed.

Lemma in_firstn {A} (n : nat) (l : list A) (x : A) : In x (firstn n l) -> In x l.
Proof. intros H. rewrite <- (firstn_skipn n l). apply in_or_app. left; exact H. Qed.

Lemma fold_results_low (ups : list Upload) : forall acc,
  (forall u, In u ups -> Permutation (up_merged u) (up_sorted u)) ->
  (forall u r, In u ups -> In r (up_merged u) -> (row_score r <= 7 # 10)%Q) ->
  (forall r, In r acc -> (row_score r <= 7 # 10)%Q) ->
  forall r, In r (fold_left (fun res u => fst (score_csv_update (up_merged u) (up_sorted u) (up_stamps u) res)) ups acc) ->
  (row_score r <= 7 # 10)%Q.
Proof.
  induction ups as [|u rest IH]; intros acc Hperm Hlow Hacc; cbn [fold_left]; [exact Hacc|].
  apply IH; [intros; apply Hperm; right; assumption|intros; apply (Hlow u0); [right|]; assumption|].
  intros r Hr. unfold score_csv_update in Hr. cbn [fst] in Hr. apply in_app_or in Hr as [Hr|Hr].
  - assert (Hs : In (row_score r) (map row_score (clean_rows 0 (up_stamps u) (firstn 50 (up_sorted u)))))
      by (apply in_map; exact Hr).
    rewrite clean_rows_scores in Hs. apply in_map_iff in Hs as [r0 [Heq Hin]].
    rewrite <- Heq. apply (Hlow u); [left; reflexivity|].
    apply (Permutation_in _ (Permutation_sym (Hperm u (or_introl eq_refl)))).
    exact (in_firstn _ _ _ Hin).
  - apply Hacc. exact (in_firstn _ _ _ Hr).
Qed.

(** The dashboard's threat counts read [score > 0.7]: when no uploaded
    record has a score above 0.7 (the case of an IsolationForest, whose
    [score_samples] is never positive), every upload reports an
    [anomaly_count] of 0 and [/api/stats] reports 0 [threatsDetected],
    whatever the number of scans. *)
Theorem stats_never_count_low_scores (ups : list Upload)
  (Hperm : forall u, In u ups -> Permutation (up_merged u) (up_sorted u))
  (Hlow : forall u r, In u ups -> In r (up_merged u) -> (row_score r <= 7 # 10)%Q) :
  snd (get_stats (results_after ups)) = 0 /\
  (forall u results, In u ups -> snd (score_csv_update (up_merged u) (up_sorted u) (up_stamps u) results) = 0).
Proof.
  assert (Hnone : forall l, (forall r, In r l -> (row_score r <= 7 # 10)%Q) ->
                            length (List.filter above_threshold l) = 0).
  { intros l Hl. induction l as [|x r IH]; simpl; [reflexivity|].
    unfold above_threshold at 1. replace (Qltb (7 # 10) (row_score x)) with false.
    - apply IH. intros y Hy. apply Hl. right; exact Hy.
    - symmetry. apply Qltb_false. apply Hl. left; reflexivity. }
  split.
  - unfold get_stats, results_after. cbn [snd]. apply Hnone.
    apply fold_results_low; [exact Hperm|exact Hlow|intros r []].
  - intros u results Hu. unfold score_csv_update. cbn [snd]. apply Hnone.
    intros r Hr. exact (Hlow u r Hu Hr).
Qed.

Lemma stats_never_count_low_scores_witness :
  (forall u, In u [full_upload] -> Permutation (up_merged u) (up_sorted u)) /\
  (forall u r, In u [full_upload] -> In r (up_merged u) -> (row_score r <= 7 # 10)%Q) /\
  (snd (get_stats (results_after [full_upload])) = 0 /\
   (forall u results, In u [full_upload] -> snd (score_csv_update (up_merged u) (up_sorted u) (up_stamps u) results) = 0)).
Proof.
  assert (Hp : forall u, In u [full_upload] -> Permutation (up_merged u) (up_sorted u)).
  { intros u [<-|[]]. reflexivity. }
  assert (Hl : forall u r, In u [full_upload] -> In r (up_merged u) -> (row_score r <= 7 # 10)%Q).
  { intros u r [<-|[]] Hr. apply repeat_spec in Hr. subst r.
    apply Qle_bool_iff. reflexivity. }
  split; [exact Hp|]. split; [exact Hl|].
  exact (stats_never_count_low_scores _ Hp Hl).
Defined.

(* ================================================================== *)
(** * Choosing the model files to load *)

Lemma str_length_app (a b : string) : String.length (a ++ b) = String.length a + String.length b.
Proof. induction a as [|c r IH]; simpl; [reflexivity|rewrite IH; reflexivity]. Qed.

Lemma substring_app_l (a b : string) (n m : nat) :
  substring (String.length a + n) m (a ++ b) = substring n m b.
Proof. induction a as [|c r IH]; simpl; [reflexivity|exact IH]. Qed.

Lemma substring_full (b : string) : forall m, String.length b <= m -> substring 0 m b = b.
Proof.
  induction b as [|c r IH]; intros m Hm; destruct m as [|m]; simpl in *; try reflexivity; try lia.
  rewrite IH by lia. reflexivity.
Qed.

Lemma rfind_dot_app (a b : string) :
  rfind_dot (a ++ b) = match rfind_dot b with Some i => Some (String.length a + i) | None => rfind_dot a end.
Proof.
  induction a as [|c r IH]; simpl.
  - destruct (rfind_dot b); reflexivity.
  - rewrite IH. destruct (rfind_dot b); reflexivity.
Qed.

Lemma max_by_mtime_spec (l : list (string * Q)) : forall best,
  In (max_by_mtime best l) (best :: l) /\
  (forall x, In x (best :: l) -> (snd x <= snd (max_by_mtime best l))%Q).
Proof.
  induction l as [|y r IH]; intros best; simpl.
  - split; [left; reflexivity|]. intros x [<-|[]]. apply Qle_refl.
  - destruct (Qltb (snd best) (snd y)) eqn:E.
    + destruct (IH y) as [H1 H2]. split.
      * destruct H1 as [H1|H1]; [right; left; exact H1|right; right; exact H1].
      * apply Qltb_iff in E. intros x [<-|[<-|Hx]].
        -- apply Qlt_le_weak. apply (Qlt_le_trans _ _ _ E). apply H2. left; reflexivity.
        -- apply H2. left; reflexivity.
        -- apply H2. right; exact Hx.
    + destruct (IH best) as [H1 H2]. split.
      * destruct H1 as [H1|H1]; [left; exact H1|right; right; exact H1].
      * apply Qltb_false in E. intros x [<-|[<-|Hx]].
        -- apply H2. left; reflexivity.
        -- apply (Qle_trans _ _ _ E). apply H2. left; reflexivity.
        -- apply H2. right; exact Hx.
Qed.

(** [_load_latest_model] raises when no file matches
    [isolation_forest_*.joblib].  When it loads, the model file matches
    that pattern and no matching file is newer.  The scaler is the file
    [scaler_<t>.joblib], where [<t>] is the stem of the model file with
    every [isolation_forest_] removed, and that file is in the
    directory. *)
Theorem load_latest_model_newest (files : list (string * Q)) :
  ((forall f, In f files -> glob_match (fst f) = false) -> load_latest_model files = None) /\
  (forall m s, load_latest_model files = Some (m, s) ->
     glob_match m = true /\
     (exists t, In (m, t) files /\ forall f, In f files -> glob_match (fst f) = true -> (snd f <= t)%Q) /\
     s = scaler_for m /\ In s (map fst files)).
Proof.
  unfold load_latest_model. split.
  - intros Hnone. replace (List.filter (fun f => glob_match (fst f)) files) with (@nil (string * Q)); [reflexivity|].
    symmetry. induction files as [|f r IH]; simpl; [reflexivity|].
    rewrite (Hnone f (or_introl eq_refl)). apply IH. intros g Hg. apply Hnone. right; exact Hg.
  - intros m s. destruct (List.filter (fun f => glob_match (fst f)) files) as [|f rest] eqn:Ef; [discriminate|].
    destruct (max_by_mtime_spec rest f) as [Hin Hmax].
    destruct (existsb (fun g => String.eqb (fst g) (scaler_for (fst (max_by_mtime f rest)))) files) eqn:Es;
      [|discriminate].
    intros H. inversion H; subst m s. clear H.
    rewrite <- Ef in Hin. apply filter_In in Hin as [Hin Hglob].
    split; [exact Hglob|]. split.
    + exists (snd (max_by_mtime f rest)). split; [destruct (max_by_mtime f rest); exact Hin|].
      intros g Hg Hgm. apply Hmax. rewrite <- Ef. apply filter_In. split; assumption.
    + split; [reflexivity|]. apply existsb_exists in Es as [g [Hg Heq]].
      apply String.eqb_eq in Heq. rewrite <- Heq. apply in_map. exact Hg.
Qed.

Lemma load_latest_model_newest_witness :
  load_latest_model [("isolation_forest_1.joblib", 5%Q); ("scaler_1.joblib", 5%Q);
                     ("isolation_forest_2.joblib", 7%Q); ("scaler_2.joblib", 7%Q)] =
    Some ("isolation_forest_2.joblib", "scaler_2.joblib") /\
  (glob_match "isolation_forest_2.joblib" = true /\
   (exists t, In ("isolation_forest_2.joblib", t) [("isolation_forest_1.joblib", 5%Q); ("scaler_1.joblib", 5%Q);
                     ("isolation_forest_2.joblib", 7%Q); ("scaler_2.joblib", 7%Q)] /\
      forall f, In f [("isolation_forest_1.joblib", 5%Q); ("scaler_1.joblib", 5%Q);
                     ("isolation_forest_2.joblib", 7%Q); ("scaler_2.joblib", 7%Q)] ->
        glob_match (fst f) = true -> (snd f <= t)%Q) /\
   "scaler_2.joblib" = scaler_for "isolation_forest_2.joblib" /\
   In "scaler_2.joblib" (map fst [("isolation_forest_1.joblib", 5%Q); ("scaler_1.joblib", 5%Q);
                     ("isolation_forest_2.joblib", 7%Q); ("scaler_2.joblib", 7%Q)])).
Proof.
  assert (H : load_latest_model [("isolation_forest_1.joblib", 5%Q); ("scaler_1.joblib", 5%Q);
                     ("isolation_forest_2.joblib", 7%Q); ("scaler_2.joblib", 7%Q)] =
    Some ("isolation_forest_2.joblib", "scaler_2.joblib")) by (vm_compute; reflexivity).
  split; [exact H|]. exact (proj2 (load_latest_model_newest _) _ _ H).
Defined.

Lemma str_append_assoc (a b c : string) : a ++ (b ++ c) = (a ++ b) ++ c.
Proof. induction a as [|x r IH]; simpl; [reflexivity|rewrite IH; reflexivity]. Qed.

Lemma prefix_app (a b : string) : String.prefix a (a ++ b) = true.
Proof.
  induction a as [|c r IH]; simpl; [destruct b; reflexivity|].
  destruct (ascii_dec c c) as [_|Hne]; [exact IH|contradiction Hne; reflexivity].
Qed.

Lemma prefix_model_file (ts : string) : String.prefix model_prefix (model_prefix ++ ts) = true.
Proof. apply prefix_app. Qed.

Lemma ends_with_app (a b : string) : ends_with b (a ++ b) = true.
Proof.
  unfold ends_with. rewrite str_length_app.
  replace (String.length a + String.length b - String.length b) with (String.length a + 0) by lia.
  rewrite substring_app_l, substring_full by lia. rewrite String.eqb_refl, andb_true_r.
  apply Nat.leb_le. lia.
Qed.

Lemma glob_match_model_file (ts : string) : glob_match (model_file_name ts) = true.
Proof.
  unfold glob_match, model_file_name.
  rewrite prefix_model_file, str_append_assoc, ends_with_app, !andb_true_l.
  apply Nat.leb_le. rewrite !str_length_app. lia.
Qed.

Lemma substring_prefix_app (a b : string) : substring 0 (String.length a) (a ++ b) = a.
Proof. induction a as [|c r IH]; simpl; [destruct b; reflexivity|rewrite IH; reflexivity]. Qed.

Lemma stem_model_file (ts : string) : stem (model_file_name ts) = model_prefix ++ ts.
Proof.
  unfold stem, model_file_name. rewrite str_append_assoc, rfind_dot_app.
  change (rfind_dot joblib_ext) with (Some 0).
  set (a := model_prefix ++ ts).
  rewrite str_length_app. change (String.length joblib_ext) with 7.
  assert (Ha : 17 <= String.length a)
    by (unfold a; rewrite str_length_app; change (String.length model_prefix) with 17; lia).
  replace (Nat.ltb 0 (String.length a + 0) && Nat.ltb (String.length a + 0) (String.length a + 7 - 1))
    with true by (symmetry; apply andb_true_iff; split; apply Nat.ltb_lt; lia).
  rewrite Nat.add_0_r. apply substring_prefix_app.
Qed.

Lemma prefix_cons (a b : ascii) (s1 s2 : string) :
  String.prefix (String a s1) (String b s2) = if ascii_dec a b then String.prefix s1 s2 else false.
Proof. reflexivity. Qed.

Lemma replace_fuel_prefix (f : nat) (old new s : string) :
  old <> EmptyString -> replace_fuel (S f) old new (old ++ s) = new ++ replace_fuel f old new s.
Proof.
  destruct old as [|c r]; [intros H; contradiction H; reflexivity|intros _].
  change (String c r ++ s) with (String c (r ++ s)). cbn [replace_fuel].
  change (String c (r ++ s)) with (String c r ++ s).
  rewrite prefix_app. f_equal. f_equal.
  replace (String.length (String c r)) with (String.length (String c r) + 0) by lia.
  rewrite substring_app_l. apply substring_full. rewrite str_length_app. lia.
Qed.

Lemma replace_stamp (ts : string) : forall fuel new,
  all_chars stamp_char ts = true -> String.length ts <= fuel ->
  replace_fuel fuel model_prefix new ts = ts.
Proof.
  induction ts as [|c r IH]; intros fuel new Hts Hf; destruct fuel as [|f]; try reflexivity.
  simpl in Hts. apply andb_true_iff in Hts as [Hc Hr].
  cbn [replace_fuel]. simpl in Hf.
  replace (String.prefix model_prefix (String c r)) with false.
  - rewrite IH by (assumption || lia). reflexivity.
  - symmetry. unfold model_prefix. rewrite prefix_cons.
    destruct (ascii_dec "i"%char c) as [<-|]; [discriminate|reflexivity].
Qed.

(** The files [train] saves and [_load_latest_model] loads agree: when the
    newest file matching [isolation_forest_*.joblib] is the model [train]
    saved under a [strftime("%Y%m%d_%H%M%S")] timestamp, and the scaler
    saved with it is present, the loader loads exactly that model and that
    scaler. *)
Theorem train_then_load (ts : string) (t : Q) (files : list (string * Q))
  (Hts : all_chars stamp_char ts = true)
  (Hmodel : In (model_file_name ts, t) files)
  (Hnewest : forall f, In f files -> glob_match (fst f) = true -> fst f <> model_file_name ts -> (snd f < t)%Q)
  (Hscaler : In (scaler_file_name ts) (map fst files)) :
  load_latest_model files = Some (model_file_name ts, scaler_file_name ts).
Proof.
  assert (Hsc : scaler_for (model_file_name ts) = scaler_file_name ts).
  { unfold scaler_for, scaler_file_name, str_replace. rewrite stem_model_file.
    rewrite str_length_app. change (String.length model_prefix + String.length ts) with (S (16 + String.length ts)).
    rewrite replace_fuel_prefix by discriminate.
    rewrite (replace_stamp ts); [reflexivity|exact Hts|lia]. }
  unfold load_latest_model.
  assert (Hf : In (model_file_name ts, t) (List.filter (fun f => glob_match (fst f)) files))
    by (apply filter_In; split; [exact Hmodel|apply glob_match_model_file]).
  destruct (List.filter (fun f => glob_match (fst f)) files) as [|f rest] eqn:Ef; [contradiction|].
  destruct (max_by_mtime_spec rest f) as [Hin Hmax].
  assert (Hname : fst (max_by_mtime f rest) = model_file_name ts).
  { destruct (String.eqb_spec (fst (max_by_mtime f rest)) (model_file_name ts)) as [E|Hne]; [exact E|].
    exfalso. rewrite <- Ef in Hin. apply filter_In in Hin as [Hin Hg].
    specialize (Hnewest _ Hin Hg Hne). specialize (Hmax _ Hf). simpl in Hmax. lra. }
  rewrite Hname, Hsc.
  replace (existsb (fun g => String.eqb (fst g) (scaler_file_name ts)) files) with true; [reflexivity|].
  symmetry. apply existsb_exists. apply in_map_iff in Hscaler as [g [Hg Hin']].
  exists g. split; [exact Hin'|]. apply String.eqb_eq. exact Hg.
Qed.

Lemma train_then_load_witness :
  all_chars stamp_char "20261017_120000" = true /\
  In (model_file_name "20261017_120000", 9%Q)
     [("isolation_forest_20261016_080000.joblib", 5%Q); ("scaler_20261016_080000.joblib", 5%Q);
      (model_file_name "20261017_120000", 9%Q); (scaler_file_name "20261017_120000", 9%Q);
      ("latest_model.joblib", 9%Q)] /\
  (forall f, In f [("isolation_forest_20261016_080000.joblib", 5%Q); ("scaler_20261016_080000.joblib", 5%Q);
      (model_file_name "20261017_120000", 9%Q); (scaler_file_name "20261017_120000", 9%Q);
      ("latest_model.joblib", 9%Q)] ->
     glob_match (fst f) = true -> fst f <> model_file_name "20261017_120000" -> (snd f < 9)%Q) /\
  In (scaler_file_name "20261017_120000")
     (map fst [("isolation_forest_20261016_080000.joblib", 5%Q); ("scaler_20261016_080000.joblib", 5%Q);
      (model_file_name "20261017_120000", 9%Q); (scaler_file_name "20261017_120000", 9%Q);
      ("latest_model.joblib", 9%Q)]) /\
  load_latest_model [("isolation_forest_20261016_080000.joblib", 5%Q); ("scaler_20261016_080000.joblib", 5%Q);
      (model_file_name "20261017_120000", 9%Q); (scaler_file_name "20261017_120000", 9%Q);
      ("latest_model.joblib", 9%Q)] =
    Some (model_file_name "20261017_120000", scaler_file_name "20261017_120000").
Proof.
  assert (Hn : forall f, In f [("isolation_forest_20261016_080000.joblib", 5%Q); ("scaler_20261016_080000.joblib", 5%Q);
      (model_file_name "20261017_120000", 9%Q); (scaler_file_name "20261017_120000", 9%Q);
      ("latest_model.joblib", 9%Q)] ->
     glob_match (fst f) = true -> fst f <> model_file_name "20261017_120000" -> (snd f < 9)%Q).
  { intros f Hf Hg Hne. simpl in Hf.
    destruct Hf as [<-|[<-|[<-|[<-|[<-|[]]]]]]; simpl in *;
      try discriminate; try (exfalso; apply Hne; reflexivity); apply Qltb_iff; reflexivity. }
  split; [reflexivity|]. split; [simpl; right; right; left; reflexivity|]. split; [exact Hn|].
  split; [simpl; right; right; right; left; reflexivity|].
  apply (train_then_load _ 9); [reflexivity|simpl; right; right; left; reflexivity|exact Hn|].
  simpl; right; right; right; left; reflexivity.
Defined.

(* ================================================================== *)
(** * The vectorizer when nothing overflows *)

Lemma existsb_eqb_In (k : string) (l : list string) : existsb (String.eqb k) l = true <-> In k l.
Proof.
  rewrite existsb_exists. split.
  - intros [x [Hx E]]. apply String.eqb_eq in E. subst. exact Hx.
  - intros H. exists k. split; [exact H|apply String.eqb_refl].
Qed.

Lemma zero_dict_get_from (schema : list string) : forall d f,
  Dict.get (fold_left (fun d f => Dict.set d f (Fin 0)) schema d) f =
  if existsb (String.eqb f) schema then Some (Fin 0) else Dict.get d f.
Proof.
  induction schema as [|x r IH]; intros d f; simpl; [reflexivity|].
  rewrite IH. destruct (String.eqb_spec f x) as [->|Hne]; simpl.
  - rewrite DictFacts.get_set_same. destruct (existsb _ r); reflexivity.
  - rewrite DictFacts.get_set_other by exact Hne. reflexivity.
Qed.

Lemma zero_dict_get (schema : list string) (f : string) :
  Dict.get (zero_dict schema) f = if existsb (String.eqb f) schema then Some (Fin 0) else None.
Proof. unfold zero_dict. rewrite zero_dict_get_from. destruct (existsb _ _); reflexivity. Qed.

Lemma py_float_raise (v : pyval) (e : exc) :
  py_float v = Raise e -> e <> OverflowError -> e = ValueError \/ e = TypeError.
Proof. destruct e; intros _ H; [left; reflexivity|right; reflexivity|contradiction H; reflexivity]. Qed.

Lemma update_loop_spec (schema : list string) (items : list (string * pyval)) : forall pd ws,
  (forall k, Dict.get pd k <> None <-> In k schema) ->
  NoDup (map fst items) ->
  (forall k v, In (k, v) items -> In k schema -> py_float v <> Raise OverflowError) ->
  exists pd',
    update_loop items pd ws = Ok (pd', (ws ++ flat_map (warnings_for schema) items)%list) /\
    (forall f, Dict.get pd' f =
       match Dict.get pd f with
       | None => None
       | Some x => Some (match Dict.get items f with Some v => slot_value v | None => x end)
       end).
Proof.
  induction items as [|[key value] rest IH]; intros pd ws Hpd Hnd Hno; simpl.
  - exists pd. split; [rewrite app_nil_r; reflexivity|]. intros f. destruct (Dict.get pd f); reflexivity.
  - inversion Hnd as [|? ? Hni Hnd']; subst.
    assert (Hrest : forall f, f <> key -> Dict.get ((key, value) :: rest) f = Dict.get rest f).
    { intros f Hf. simpl. destruct (String.eqb_spec f key); [contradiction|reflexivity]. }
    assert (Hnone : Dict.get rest key = None).
    { clear -Hni. induction rest as [|[k v] r IH]; simpl; [reflexivity|].
      destruct (String.eqb_spec key k) as [->|]; [contradiction Hni; left; reflexivity|].
      apply IH. intros H. apply Hni. right; exact H. }
    assert (Hno' : forall k v, In (k, v) rest -> In k schema -> py_float v <> Raise OverflowError)
      by (intros k v H; apply Hno; right; exact H).
    (* the entry is in the schema or not *)
    destruct (Dict.get pd key) as [old|] eqn:Hkey.
    + assert (Hin : In key schema) by (apply Hpd; rewrite Hkey; discriminate).
      assert (Hex : existsb (String.eqb key) schema = true) by (apply existsb_eqb_In; exact Hin).
      assert (Hset : forall x, forall k, Dict.get (Dict.set pd key x) k <> None <-> In k schema).
      { intros x k. destruct (String.eqb_spec k key) as [->|Hne].
        - rewrite DictFacts.get_set_same. split; [intros _; exact Hin|discriminate].
        - rewrite DictFacts.get_set_other by exact Hne. apply Hpd. }
      assert (Hval : forall x pd', x = slot_value value ->
                 (forall f, Dict.get pd' f =
                    match Dict.get (Dict.set pd key x) f with
                    | None => None
                    | Some y => Some (match Dict.get rest f with Some v => slot_value v | None => y end)
                    end) ->
                 forall f, Dict.get pd' f =
                   match Dict.get pd f with
                   | None => None
                   | Some y => Some (match Dict.get ((key, value) :: rest) f with
                                     | Some v => slot_value v | None => y end)
                   end).
      { intros x pd' Hx Hpd' f. rewrite Hpd'. destruct (String.eqb_spec f key) as [->|Hne].
        - rewrite DictFacts.get_set_same, Hkey, Hnone. simpl. rewrite String.eqb_refl, Hx. reflexivity.
        - rewrite DictFacts.get_set_other, Hrest by exact Hne. reflexivity. }
      destruct (py_float value) as [fv|e] eqn:Hv.
      * destruct (IH (Dict.set pd key fv) ws (Hset fv) Hnd' Hno') as [pd' [Hrun Hget]].
        exists pd'. split.
        -- rewrite Hrun. cbn [flat_map warnings_for]. rewrite Hex. reflexivity.
        -- apply (Hval fv); [unfold slot_value; rewrite Hv; reflexivity|exact Hget].
      * assert (He : e = ValueError \/ e = TypeError).
        { apply (py_float_raise value); [exact Hv|]. intros ->. apply (Hno key value); [left; reflexivity|exact Hin|exact Hv]. }
        destruct (IH (Dict.set pd key (Fin 0)) (ws ++ [CouldNotConvert key])%list (Hset (Fin 0)) Hnd' Hno')
          as [pd' [Hrun Hget]].
        exists pd'. split.
        -- destruct He as [->| ->]; rewrite Hrun; cbn [flat_map warnings_for]; rewrite Hex;
             rewrite <- app_assoc; reflexivity.
        -- apply (Hval (Fin 0)); [unfold slot_value; rewrite Hv; reflexivity|exact Hget].
    + assert (Hex : existsb (String.eqb key) schema = false).
      { destruct (existsb (String.eqb key) schema) eqn:E; [|reflexivity].
        apply existsb_eqb_In, Hpd in E. contradiction. }
      destruct (IH pd (ws ++ [IgnoringUnknown key])%list Hpd Hnd' Hno') as [pd' [Hrun Hget]].
      exists pd'. split.
      * rewrite Hrun. cbn [flat_map warnings_for]. rewrite Hex, <- app_assoc. reflexivity.
      * intros f. rewrite Hget. destruct (String.eqb_spec f key) as [->|Hne].
        -- rewrite Hkey. reflexivity.
        -- rewrite <- (Hrest f Hne). reflexivity.
Qed.

Lemma vectorize_ok (schema : list string) (data : list (string * pyval))
  (Hnd : NoDup (map fst data))
  (Hno : forall k v, In (k, v) data -> In k schema -> py_float v <> Raise OverflowError) :
  vectorize schema data =
  Ok (map (fun f => match Dict.get data f with Some v => slot_value v | None => Fin 0 end) schema,
      flat_map (warnings_for schema) data).
Proof.
  assert (Hpd : forall k, Dict.get (zero_dict schema) k <> None <-> In k schema).
  { intros k. rewrite zero_dict_get, <- existsb_eqb_In.
    destruct (existsb _ _); split; intros H; try discriminate; try reflexivity. contradiction H; reflexivity. }
  destruct (update_loop_spec schema data (zero_dict schema) [] Hpd Hnd Hno) as [pd' [Hrun Hget]].
  unfold vectorize. rewrite Hrun. simpl app. f_equal. f_equal.
  unfold select_columns. apply map_ext_in. intros f Hf.
  rewrite Hget, zero_dict_get. apply existsb_eqb_In in Hf. rewrite Hf. reflexivity.
Qed.

(** When no value of a schema key makes [float()] raise [OverflowError],
    [preprocess_data]'s vectorization succeeds.  Each slot holds
    [float(value)] of the record's entry for that name.  It holds 0.0 when
    the entry is missing or [float] raises [ValueError] or [TypeError].
    The warnings come one per record entry, in record order:
    [Ignoring unknown feature] for a key outside the schema, [Could not
    convert] for a value [float] rejects, none otherwise. *)
Theorem vectorize_no_overflow (schema : list string) (data : list (string * pyval))
  (Hnd : NoDup (map fst data))
  (Hno : forall k v, In (k, v) data -> In k schema -> py_float v <> Raise OverflowError) :
  vectorize schema data =
  Ok (map (fun f => match Dict.get data f with Some v => slot_value v | None => Fin 0 end) schema,
      flat_map (warnings_for schema) data).
Proof. exact (vectorize_ok schema data Hnd Hno). Qed.

Lemma vectorize_no_overflow_witness :
  NoDup (map fst [("a", PStr "1_000"); ("b", PStr "bad"); ("c", PStr (String "160" "2.5")); ("d", PInt 9)]) /\
  (forall k v, In (k, v) [("a", PStr "1_000"); ("b", PStr "bad"); ("c", PStr (String "160" "2.5")); ("d", PInt 9)] -> In k ["a"; "b"; "c"; "e"] ->
     py_float v <> Raise OverflowError) /\
  vectorize ["a"; "b"; "c"; "e"] [("a", PStr "1_000"); ("b", PStr "bad"); ("c", PStr (String "160" "2.5")); ("d", PInt 9)] =
  Ok (map (fun f => match Dict.get [("a", PStr "1_000"); ("b", PStr "bad"); ("c", PStr (String "160" "2.5")); ("d", PInt 9)] f with
                    | Some v => slot_value v | None => Fin 0 end) ["a"; "b"; "c"; "e"],
      flat_map (warnings_for ["a"; "b"; "c"; "e"]) [("a", PStr "1_000"); ("b", PStr "bad"); ("c", PStr (String "160" "2.5")); ("d", PInt 9)]).
Proof.
  assert (Hnd : NoDup (map fst [("a", PStr "1_000"); ("b", PStr "bad"); ("c", PStr (String "160" "2.5")); ("d", PInt 9)])).
  { simpl. repeat constructor; simpl; intuition discriminate. }
  assert (Hno : forall k v, In (k, v) [("a", PStr "1_000"); ("b", PStr "bad"); ("c", PStr (String "160" "2.5")); ("d", PInt 9)] ->
                  In k ["a"; "b"; "c"; "e"] -> py_float v <> Raise OverflowError).
  { intros k v H _. simpl in H. destruct H as [H|[H|[H|[H|[]]]]]; inversion H; subst; vm_compute; discriminate. }
  split; [exact Hnd|]. split; [exact Hno|]. exact (vectorize_no_overflow _ _ Hnd Hno).
Defined.

(** Digit separators and a leading no-break space are read as [float()]
    reads them. *)
Example vectorize_separators :
  vectorize ["a"; "c"] [("a", PStr "1_000"); ("c", PStr (String "160" "2.5"))] =
  Ok ([Fin 1000; Fin (5 # 2)], []).
Proof. vm_compute. reflexivity. Qed.

(* ================================================================== *)
(** * The sample traffic of [main.py] *)

Lemma nodupb_NoDup (l : list string) : nodupb l = true -> NoDup l.
Proof.
  induction l as [|x r IH]; simpl; intros H; [constructor|].
  apply andb_true_iff in H as [H1 H2]. constructor; [|exact (IH H2)].
  intros Hin. apply existsb_eqb_In in Hin. rewrite Hin in H1. discriminate.
Qed.

Lemma flat_map_nil {A B} (f : A -> list B) (l : list A) :
  (forall x, In x l -> f x = []) -> flat_map f l = [].
Proof.
  induction l as [|x r IH]; simpl; intros H; [reflexivity|].
  rewrite H by (left; reflexivity). apply IH. intros y Hy. apply H. right; exact Hy.
Qed.

Lemma map_get_keys {V B} (g : option V -> B) (l : list (string * V)) :
  NoDup (map fst l) -> map (fun f => g (Dict.get l f)) (map fst l) = map (fun kv => g (Some (snd kv))) l.
Proof.
  induction l as [|[k v] r IH]; simpl; intros Hnd; [reflexivity|].
  inversion Hnd as [|? ? Hni Hnd']; subst.
  rewrite String.eqb_refl. f_equal. rewrite <- (IH Hnd').
  apply map_ext_in. intros f Hf. destruct (String.eqb_spec f k) as [->|]; [contradiction|reflexivity].
Qed.

Lemma sample_spec_valid (k : string) (d : draw) : In (k, d) sample_spec -> valid_draw d = true.
Proof.
  assert (H : forallb (fun kd => valid_draw (snd kd)) sample_spec = true) by reflexivity.
  intros Hin. exact (proj1 (forallb_forall _ _) H _ Hin).
Qed.

Lemma drawn_value_float (d : draw) (v : pyval) :
  valid_draw d = true -> drawn_from d v -> py_float v = Ok (number_value v).
Proof.
  assert (Hob : (1000000 < overflow_bound)%Z) by (apply Z.ltb_lt; reflexivity).
  destruct d as [lo hi|lo hi]; simpl; intros Hv Hd.
  - destruct v; try contradiction. apply andb_true_iff in Hv as [Hv Hhi].
    apply andb_true_iff in Hv as [Hlo _].
    apply Z.leb_le in Hlo. apply Z.leb_le in Hhi.
    simpl. replace (Z.abs z <? overflow_bound)%Z with true; [reflexivity|].
    symmetry. apply Z.ltb_lt. lia.
  - destruct v as [| | |f| | | |]; try contradiction; destruct f; try contradiction; reflexivity.
Qed.

Lemma sample_keys (pick : string -> draw -> pyval) :
  map fst (generate_sample_network_traffic pick) = feature_names.
Proof.
  unfold generate_sample_network_traffic. rewrite map_map.
  transitivity (map fst sample_spec); [apply map_ext; intros [k d]; reflexivity|reflexivity].
Qed.

Lemma sample_vectorize (pick : string -> draw -> pyval)
  (Hpick : forall k d, In (k, d) sample_spec -> drawn_from d (pick k d)) :
  vectorize feature_names (generate_sample_network_traffic pick) =
  Ok (map (fun kd => number_value (pick (fst kd) (snd kd))) sample_spec, []).
Proof.
  set (data := generate_sample_network_traffic pick).
  assert (Hkeys : map fst data = feature_names) by apply sample_keys.
  assert (Hnd : NoDup (map fst data)) by (rewrite Hkeys; apply nodupb_NoDup; reflexivity).
  assert (Hval : forall k v, In (k, v) data -> py_float v = Ok (number_value v)).
  { intros k v Hin. unfold data, generate_sample_network_traffic in Hin.
    apply in_map_iff in Hin as [[k' d] [E Hin]]. inversion E; subst.
    apply (drawn_value_float d); [exact (sample_spec_valid k d Hin)|exact (Hpick k d Hin)]. }
  rewrite (vectorize_ok feature_names data Hnd).
  2: { intros k v Hin _. rewrite (Hval k v Hin). discriminate. }
  f_equal. f_equal.
  - rewrite <- Hkeys at 1.
    rewrite (map_get_keys (fun o => match o with Some v => slot_value v | None => Fin 0 end) data Hnd).
    unfold data, generate_sample_network_traffic. rewrite map_map.
    apply map_ext_in. intros [k d] Hin. simpl.
    unfold slot_value. rewrite (drawn_value_float d (pick k d) (sample_spec_valid k d Hin) (Hpick k d Hin)).
    reflexivity.
  - apply flat_map_nil. intros [k v] Hin. unfold warnings_for.
    assert (Hk : In k feature_names) by (rewrite <- Hkeys; apply in_map_iff; exists (k, v); split; [reflexivity|exact Hin]).
    apply existsb_eqb_In in Hk. rewrite Hk, (Hval k v Hin). reflexivity.
Qed.

(** Whatever values [random] returns within the ranges of
    [generate_sample_network_traffic], the record it builds has exactly the
    model's 52 features: [preprocess_data] vectorizes it without a warning,
    and each feature's slot is the drawn number, as a float. *)
Theorem sample_traffic_vectorizes (pick : string -> draw -> pyval)
  (Hpick : forall k d, In (k, d) sample_spec -> drawn_from d (pick k d)) :
  vectorize feature_names (generate_sample_network_traffic pick) =
  Ok (map (fun kd => number_value (pick (fst kd) (snd kd))) sample_spec, []).
Proof. exact (sample_vectorize pick Hpick). Qed.

Lemma sample_traffic_vectorizes_witness :
  (forall k d, In (k, d) sample_spec -> drawn_from d (pick_low k d)) /\
  vectorize feature_names (generate_sample_network_traffic pick_low) =
  Ok (map (fun kd => number_value (pick_low (fst kd) (snd kd))) sample_spec, []).
Proof.
  assert (H : forall k d, In (k, d) sample_spec -> drawn_from d (pick_low k d)).
  { intros k d Hin. pose proof (sample_spec_valid k d Hin) as Hv.
    destruct d as [lo hi|lo hi]; simpl in *.
    - apply andb_true_iff in Hv as [Hv _]. apply andb_true_iff in Hv as [_ Hv].
      apply Z.leb_le in Hv. lia.
    - apply Qle_bool_iff in Hv. split; [apply Qle_refl|exact Hv]. }
  split; [exact H|]. exact (sample_traffic_vectorizes pick_low H).
Defined.

(* ================================================================== *)
(** * The [/detect] endpoint *)

Lemma set_fresh {V} (acc : Dict.dict V) (k : string) (v : V) :
  ~ In k (map fst acc) -> Dict.set acc k v = (acc ++ [(k, v)])%list.
Proof.
  induction acc as [|[k' v'] r IH]; simpl; intros Hk; [reflexivity|].
  destruct (String.eqb_spec k k') as [->|]; [contradiction Hk; left; reflexivity|].
  rewrite IH; [reflexivity|]. intros H. apply Hk. right; exact H.
Qed.

Lemma first_features_spec (kv : list (string * pyval)) : forall i acc,
  NoDup (map fst kv) ->
  (forall k, In k (map fst kv) -> ~ In k (map fst acc)) ->
  first_features i kv acc = (acc ++ firstn (5 - i) kv)%list.
Proof.
  induction kv as [|[k v] r IH]; intros i acc Hnd Hdis; cbn [first_features].
  - rewrite firstn_nil, app_nil_r. reflexivity.
  - inversion Hnd as [|? ? Hni Hnd']; subst.
    destruct (Nat.ltb_spec i 5) as [Hi|Hi].
    + rewrite set_fresh by (apply Hdis; left; reflexivity).
      rewrite IH; [|exact Hnd'|].
      * replace (5 - i) with (S (5 - S i)) by lia. simpl. rewrite <- app_assoc. reflexivity.
      * intros k' Hk'. rewrite map_app, in_app_iff. simpl. intros [H|[H|[]]].
        -- exact (Hdis k' (or_intror Hk') H).
        -- subst. contradiction.
    + rewrite IH; [|exact Hnd'|intros k' Hk'; exact (Hdis k' (or_intror Hk'))].
      replace (5 - i) with 0 by lia. replace (5 - S i) with 0 by lia. reflexivity.
Qed.

Lemma first_features_firstn (kv : list (string * pyval)) :
  NoDup (map fst kv) -> first_features 0 kv [] = firstn 5 kv.
Proof. intros Hnd. rewrite first_features_spec; [reflexivity|exact Hnd|intros k _ []]. Qed.

(** A [/detect] call on a JSON object that returns 200 found the detector
    loaded and ran [preprocess_data] and the model's [decision_function]
    successfully.  The reply has the fields [status], [is_anomaly] (score
    below the double -0.05), [score], [severity] ([high] below the double
    -0.15, [medium] below -0.05, [low] otherwise), [timestamp] and
    [features], in this order.  [features] holds the first five entries of
    the posted JSON object.  A call whose score is not anomalous leaves the
    alert agent as it was. *)
Theorem detect_success scaler decision_function client t_check t_record
    stamp stamp_alert stamp_err ag kv load ag' resp
  (Hnd : NoDup (map fst kv))
  (Hd : detect scaler decision_function client t_check t_record stamp stamp_alert stamp_err
          ag (inr (PDict kv)) load = (ag', resp))
  (H200 : code resp = 200) :
  load = None /\
  exists processed score,
    preprocess_data scaler feature_names kv = Ok processed /\
    decision_function processed = Ok score /\
    body resp =
      [("status", PStr "success"); ("is_anomaly", PBool (Qltb score MILD_THRESHOLD));
       ("score", PFloat (Fin score));
       ("severity", PStr (if Qltb score SEVERE_THRESHOLD then "high"
                          else if Qltb score MILD_THRESHOLD then "medium" else "low"));
       ("timestamp", PStr stamp); ("features", PDict (firstn 5 kv))] /\
    (Qltb score MILD_THRESHOLD = false -> ag' = ag).
Proof.
  unfold detect in Hd. cbn beta iota in Hd.
  destruct (negb (truthy (PDict kv))); [injection Hd as _ <-; discriminate|].
  destruct load as [msg|]; [injection Hd as _ <-; discriminate|].
  split; [reflexivity|].
  destruct (detect_anomaly scaler decision_function ag client t_check t_record stamp stamp_alert kv)
    as [[ag1 r]|e] eqn:Hda; [|injection Hd as _ <-; discriminate].
  injection Hd as <- <-.
  unfold detect_anomaly, detect_anomaly_with in Hda.
  destruct (preprocess_data scaler feature_names kv) as [processed|e] eqn:Hp; [|discriminate].
  destruct (decision_function processed) as [score|e] eqn:Hs; [|discriminate].
  exists processed, score. split; [reflexivity|]. split; [exact Hs|].
  destruct (score_verdict SEVERE_THRESHOLD MILD_THRESHOLD score) as [anom sev] eqn:Ev.
  unfold score_verdict in Ev. injection Ev as <- <-.
  destruct (Qltb score MILD_THRESHOLD) eqn:Hm; cbn beta iota zeta in Hda; injection Hda as <- <-;
    (split; [cbn [body is_anomaly anomaly_score severity sr_timestamp features];
             rewrite first_features_firstn by exact Hnd; reflexivity|]).
  - discriminate.
  - intros _. reflexivity.
Qed.

Lemma detect_success_witness :
  NoDup (map fst posted_flow) /\
  detect None detect_high_df None 1000 1000 "t0" "t0" "t1" (init 5 300) (inr (PDict posted_flow)) None =
    (fst detect_posted, snd detect_posted) /\
  code (snd detect_posted) = 200 /\
  (@None string = None /\
   exists processed score,
     preprocess_data None feature_names posted_flow = Ok processed /\
     detect_high_df processed = Ok score /\
     body (snd detect_posted) =
       [("status", PStr "success"); ("is_anomaly", PBool (Qltb score MILD_THRESHOLD));
        ("score", PFloat (Fin score));
        ("severity", PStr (if Qltb score SEVERE_THRESHOLD then "high"
                           else if Qltb score MILD_THRESHOLD then "medium" else "low"));
        ("timestamp", PStr "t0"); ("features", PDict (firstn 5 posted_flow))] /\
     (Qltb score MILD_THRESHOLD = false -> fst detect_posted = init 5 300)).
Proof.
  assert (Hnd : NoDup (map fst posted_flow)).
  { vm_compute. repeat constructor; simpl; intuition discriminate. }
  assert (Hd := surjective_pairing detect_posted).
  assert (H200 : code (snd detect_posted) = 200) by (vm_compute; reflexivity).
  split; [exact Hnd|]. split; [exact Hd|]. split; [exact H200|].
  exact (detect_success _ _ _ _ _ _ _ _ _ _ _ _ _ Hnd Hd H200).
Defined.

(** The reply to [posted_flow]: severity [high], the first five entries,
    and the alert recorded in the agent's history. *)
Example detect_posted_reply :
  body (snd detect_posted) =
    [("status", PStr "success"); ("is_anomaly", PBool true);
     ("score", PFloat (Fin (-3602879701896397 # 18014398509481984)));
     ("severity", PStr "high"); ("timestamp", PStr "t0");
     ("features", PDict (firstn 5 posted_flow))] /\
  history_of (alert_history (fst detect_posted)) "high" = [1000%Q].
Proof. split; vm_compute; reflexivity. Qed.

(** A [/detect] call that does not return 200 leaves the alert agent as it
    was, and is one of three cases.  [request.get_json()] raised: 500 with
    [status: error], the exception's message and the error timestamp.  The
    body is empty or falsy: 400 [No data provided].  Otherwise 500 with
    [status: error], a message and the error timestamp, where either
    [get_anomaly_detector()] raised and the message is its exception's, or
    the detector was loaded and: for a JSON object [detect_anomaly] raised;
    for any other JSON value (a list, a string, a number, [true]) the
    message is the [AttributeError] of calling [.items()] on it. *)
Theorem detect_rejects scaler decision_function client t_check t_record
    stamp stamp_alert stamp_err ag req load ag' resp
  (Hd : detect scaler decision_function client t_check t_record stamp stamp_alert stamp_err
          ag req load = (ag', resp))
  (Hne : code resp <> 200) :
  ag' = ag /\
  ((exists msg, req = inl msg /\ resp = error_response stamp_err msg) \/
   (exists data, req = inr data /\ truthy data = false /\
      resp = mkResponse 400 [("error", PStr "No data provided")]) \/
   (exists data, req = inr data /\ truthy data = true /\
    exists msg,
      resp = error_response stamp_err msg /\
      (load = Some msg \/
       (load = None /\
        match data with
        | PDict kv => exists e,
            detect_anomaly scaler decision_function ag client t_check t_record stamp stamp_alert kv
              = Raise e
        | _ => msg = ("'" ++ type_name data ++ "' object has no attribute 'items'")%string
        end)))).
Proof.
  unfold detect in Hd. destruct req as [msg|data].
  - injection Hd as <- <-. split; [reflexivity|]. left. exists msg. split; reflexivity.
  - destruct (truthy data) eqn:Ht; cbn [negb] in Hd.
    2: { injection Hd as <- <-. split; [reflexivity|]. right; left.
         exists data. split; [reflexivity|]. split; [exact Ht|reflexivity]. }
    destruct load as [msg|].
    { injection Hd as <- <-. split; [reflexivity|]. right; right.
      exists data. split; [reflexivity|]. split; [exact Ht|].
      exists msg. split; [reflexivity|]. left; reflexivity. }
    destruct data as [| | | | | |kv|];
      try (injection Hd as <- <-; split; [reflexivity|]; right; right;
           eexists; split; [reflexivity|]; split; [exact Ht|];
           eexists; split; [reflexivity|]; right; split; reflexivity).
    destruct (detect_anomaly scaler decision_function ag client t_check t_record stamp stamp_alert kv)
      as [[a r]|e] eqn:Hda; injection Hd as <- <-.
    + contradiction Hne. reflexivity.
    + split; [reflexivity|]. right; right.
      exists (PDict kv). split; [reflexivity|]. split; [exact Ht|].
      exists (exc_name e). split; [reflexivity|]. right. split; [reflexivity|].
      exists e. exact Hda.
Qed.

Lemma detect_rejects_witness :
  (detect None detect_high_df None 0 0 "t0" "t0" "t1" (init 5 300)
     (inl "400 Bad Request: Failed to decode JSON object") None =
   (fst (detect None detect_high_df None 0 0 "t0" "t0" "t1" (init 5 300)
           (inl "400 Bad Request: Failed to decode JSON object") None),
    snd (detect None detect_high_df None 0 0 "t0" "t0" "t1" (init 5 300)
           (inl "400 Bad Request: Failed to decode JSON object") None)) /\
   code (snd (detect None detect_high_df None 0 0 "t0" "t0" "t1" (init 5 300)
                (inl "400 Bad Request: Failed to decode JSON object") None)) <> 200 /\
   fst (detect None detect_high_df None 0 0 "t0" "t0" "t1" (init 5 300)
          (inl "400 Bad Request: Failed to decode JSON object") None) = init 5 300) /\
  (detect None detect_high_df None 0 0 "t0" "t0" "t1" (init 5 300) (inr (PDict posted_flow))
     (Some "No model files found in the models directory") =
   (fst (detect None detect_high_df None 0 0 "t0" "t0" "t1" (init 5 300) (inr (PDict posted_flow))
           (Some "No model files found in the models directory")),
    snd (detect None detect_high_df None 0 0 "t0" "t0" "t1" (init 5 300) (inr (PDict posted_flow))
           (Some "No model files found in the models directory"))) /\
   code (snd (detect None detect_high_df None 0 0 "t0" "t0" "t1" (init 5 300) (inr (PDict posted_flow))
                (Some "No model files found in the models directory"))) <> 200 /\
   fst (detect None detect_high_df None 0 0 "t0" "t0" "t1" (init 5 300) (inr (PDict posted_flow))
          (Some "No model files found in the models directory")) = init 5 300).
Proof.
  split.
  - assert (Hd := surjective_pairing
      (detect None detect_high_df None 0 0 "t0" "t0" "t1" (init 5 300)
         (inl "400 Bad Request: Failed to decode JSON object") None)).
    assert (Hne : code (snd (detect None detect_high_df None 0 0 "t0" "t0" "t1" (init 5 300)
                     (inl "400 Bad Request: Failed to decode JSON object") None)) <> 200)
      by (vm_compute; discriminate).
    split; [exact Hd|]. split; [exact Hne|].
    exact (proj1 (detect_rejects _ _ _ _ _ _ _ _ _ _ _ _ _ Hd Hne)).
  - assert (Hd := surjective_pairing
      (detect None detect_high_df None 0 0 "t0" "t0" "t1" (init 5 300) (inr (PDict posted_flow))
         (Some "No model files found in the models directory"))).
    assert (Hne : code (snd (detect None detect_high_df None 0 0 "t0" "t0" "t1" (init 5 300)
                     (inr (PDict posted_flow)) (Some "No model files found in the models directory"))) <> 200)
      by (vm_compute; discriminate).
    split; [exact Hd|]. split; [exact Hne|].
    exact (proj1 (detect_rejects _ _ _ _ _ _ _ _ _ _ _ _ _ Hd Hne)).
Defined.

(* ================================================================== *)
(** * A successful [send_alert] *)

Lemma get_not_in_keys {V} (d : Dict.dict V) (k : string) : ~ In k (Dict.keys d) -> Dict.get d k = None.
Proof.
  induction d as [|[k' v'] r IH]; simpl; intros Hk; [reflexivity|].
  destruct (String.eqb_spec k k') as [->|]; [contradiction Hk; left; reflexivity|].
  apply IH. intros H. apply Hk. right; exact H.
Qed.

Lemma get_del_same {V} (d : Dict.dict V) (k : string) : NoDup (Dict.keys d) -> Dict.get (Dict.del d k) k = None.
Proof.
  induction d as [|[k' v'] r IH]; simpl; intros Hnd; [reflexivity|].
  inversion Hnd as [|? ? Hni Hnd']; subst.
  destruct (String.eqb_spec k k') as [->|Hne].
  - apply get_not_in_keys. exact Hni.
  - simpl. destruct (String.eqb_spec k k'); [contradiction|]. exact (IH Hnd').
Qed.

Lemma get_del_other {V} (d : Dict.dict V) (k k2 : string) : k2 <> k -> Dict.get (Dict.del d k) k2 = Dict.get d k2.
Proof.
  intros Hne. induction d as [|[k' v'] r IH]; simpl; [reflexivity|].
  destruct (String.eqb_spec k k') as [->|].
  - destruct (String.eqb_spec k2 k'); [contradiction|reflexivity].
  - simpl. destruct (String.eqb k2 k'); [reflexivity|exact IH].
Qed.

Lemma keys_set {V} (d : Dict.dict V) (k : string) (v : V) :
  Dict.keys (Dict.set d k v) =
  if existsb (String.eqb k) (Dict.keys d) then Dict.keys d else (Dict.keys d ++ [k])%list.
Proof.
  unfold Dict.keys. induction d as [|[k' v'] r IH]; simpl; [reflexivity|].
  destruct (String.eqb_spec k k') as [->|]; simpl; [reflexivity|].
  rewrite IH. destruct (existsb _ _); reflexivity.
Qed.

Lemma last_default {A} (l : list A) (d d' : A) : l <> [] -> last l d = last l d'.
Proof.
  induction l as [|x r IH]; intros Hl; [contradiction Hl; reflexivity|].
  destruct r as [|y ys]; [reflexivity|]. simpl. apply IH. discriminate.
Qed.

Lemma cleanup_loop_last (ks : list string) : forall h now alert_type,
  snd (cleanup_loop ks h now alert_type) = last ks alert_type.
Proof.
  induction ks as [|k rest IH]; intros h now alert_type; [reflexivity|].
  cbn [cleanup_loop]. rewrite IH. destruct rest as [|y ys]; [reflexivity|].
  change (last (k :: y :: ys) alert_type) with (last (y :: ys) alert_type).
  apply last_default. discriminate.
Qed.

Lemma cleanup_loop_history (ks : list string) : forall h now alert_type k,
  NoDup (Dict.keys h) ->
  history_of (fst (cleanup_loop ks h now alert_type)) k =
  if existsb (String.eqb k) ks
  then List.filter (fun t => Qltb (now - t) 3600) (history_of h k) else history_of h k.
Proof.
  induction ks as [|k0 rest IH]; intros h now alert_type k Hnd; [reflexivity|].
  cbn [cleanup_loop existsb].
  set (kept := List.filter (fun t => Qltb (now - t) 3600) (history_of h k0)).
  set (h2 := match kept with [] => Dict.del (Dict.set h k0 kept) k0 | _ => Dict.set h k0 kept end).
  assert (Hnd2 : NoDup (Dict.keys h2)).
  { unfold h2. destruct kept; [apply DictFacts.nodup_del|]; apply DictFacts.nodup_set; exact Hnd. }
  assert (Hh2 : forall k', history_of h2 k' = if String.eqb k' k0 then kept else history_of h k').
  { intros k'. unfold h2, history_of.
    destruct (String.eqb_spec k' k0) as [->|Hne].
    - destruct kept as [|x xs] eqn:Ek.
      + rewrite get_del_same; [reflexivity|apply DictFacts.nodup_set; exact Hnd].
      + rewrite DictFacts.get_set_same. reflexivity.
    - destruct kept as [|x xs].
      + rewrite get_del_other, DictFacts.get_set_other by exact Hne. reflexivity.
      + rewrite DictFacts.get_set_other by exact Hne. reflexivity. }
  rewrite (IH h2 now k0 k Hnd2), !Hh2.
  destruct (String.eqb_spec k k0) as [->|Hne]; simpl.
  - destruct (existsb _ rest); [apply filter_idem|reflexivity].
  - reflexivity.
Qed.

Lemma cleanup_history_history (h : Dict.dict (list Q)) (now : Q) (alert_type k : string) :
  NoDup (Dict.keys h) ->
  history_of (fst (cleanup_history h now alert_type)) k =
  List.filter (fun t => Qltb (now - t) 3600) (history_of h k).
Proof.
  intros Hnd. unfold cleanup_history. rewrite cleanup_loop_history by exact Hnd.
  destruct (existsb (String.eqb k) (Dict.keys h)) eqn:E; [reflexivity|].
  unfold history_of. rewrite get_not_in_keys; [reflexivity|].
  intros Hin. apply existsb_eqb_In in Hin. rewrite Hin in E. discriminate.
Qed.

Lemma cleanup_history_nodup (h : Dict.dict (list Q)) (now : Q) (alert_type : string) :
  NoDup (Dict.keys h) -> NoDup (Dict.keys (fst (cleanup_history h now alert_type))).
Proof.
  intros Hnd. apply cleanup_loop_invariant; [exact Hnd|].
  intros k l Hin. left. apply (in_map fst _ _ Hin).
Qed.

Lemma filter_length_le {A} (f : A -> bool) (l : list A) : length (List.filter f l) <= length l.
Proof. induction l as [|x r IH]; simpl; [lia|]. destruct (f x); simpl; lia. Qed.

Lemma is_rate_limited_admits (ag : AlertAgent) (c : string) (now : Q) :
  limited (snd (is_rate_limited ag c now)) = false ->
  (Z.of_nat (length (List.filter (fun t => Qltb (now - t) 60) (history_of (alert_history ag) c)))
     < rate_limit ag)%Z.
Proof.
  unfold is_rate_limited. destruct (Qltb _ _); [discriminate|].
  destruct (_ <=? _)%Z eqn:E; [discriminate|]. intros _. apply Z.leb_gt in E. exact E.
Qed.

Lemma send_alert_success_parts (ag : AlertAgent) client ad t_check t_record stamp :
  status (snd (send_alert ag client ad t_check t_record stamp)) = "success" ->
  limited (snd (is_rate_limited ag (ad_severity ad) t_check)) = false /\
  exists h3 at',
    cleanup_history
      (Dict.set (alert_history ag) (ad_severity ad)
         (List.filter (fun t => Qltb (t_check - t) 60) (history_of (alert_history ag) (ad_severity ad))
          ++ [t_record])%list) t_record (ad_severity ad) = (h3, at') /\
    fst (send_alert ag client ad t_check t_record stamp) =
      mkAgent (rate_limit ag) (cooldown ag) h3
        (Dict.set (alert_cooldowns ag) (ad_severity ad) t_record) /\
    alert_type_field (snd (send_alert ag client ad t_check t_record stamp)) = Some at'.
Proof.
  pose proof (fst_is_rate_limited ag (ad_severity ad) t_check) as Hfst.
  unfold send_alert.
  destruct (is_rate_limited ag (ad_severity ad) t_check) as [ag1 v] eqn:E. simpl in Hfst. subst ag1.
  destruct (limited v) eqn:Hl; [simpl; discriminate|].
  destruct (generate_alert_message client ad) as [m|e]; [|simpl; discriminate].
  intros _. split; [exact Hl|].
  unfold record_emission, with_history. cbn [alert_history alert_cooldowns rate_limit cooldown].
  rewrite history_of_set_same, DictFacts.set_set.
  destruct (cleanup_history _ t_record (ad_severity ad)) as [h3 at'] eqn:Ec.
  exists h3, at'. split; [reflexivity|]. split; reflexivity.
Qed.

(** After a [send_alert] call that returns [success] for class [c] (the
    severity), on an agent whose history has no duplicate key:
    - the cooldown of [c] is the time [t_record] of the emission, and the
      other classes' cooldowns are unchanged;
    - the history of [c] is its entries of the last 60 s at the check,
      minus those an hour old at [t_record], followed by [t_record], so it
      holds at most [rate_limit] times;
    - every other class only loses its entries that are an hour old;
    - the history keeps unique keys;
    - the record names [c] when [c] had no history key before the call,
      and otherwise the last key of the history. *)
Theorem send_alert_success (ag : AlertAgent) client ad t_check t_record stamp
  (Hnd : NoDup (Dict.keys (alert_history ag)))
  (Hs : status (snd (send_alert ag client ad t_check t_record stamp)) = "success") :
  Dict.get (alert_cooldowns (fst (send_alert ag client ad t_check t_record stamp))) (ad_severity ad)
    = Some t_record /\
  (forall c', c' <> ad_severity ad ->
     Dict.get (alert_cooldowns (fst (send_alert ag client ad t_check t_record stamp))) c'
     = Dict.get (alert_cooldowns ag) c') /\
  history_of (alert_history (fst (send_alert ag client ad t_check t_record stamp))) (ad_severity ad) =
    (List.filter (fun t => Qltb (t_record - t) 3600)
       (List.filter (fun t => Qltb (t_check - t) 60) (history_of (alert_history ag) (ad_severity ad)))
     ++ [t_record])%list /\
  (Z.of_nat (length (history_of (alert_history (fst (send_alert ag client ad t_check t_record stamp)))
                       (ad_severity ad))) <= rate_limit ag)%Z /\
  (forall c', c' <> ad_severity ad ->
     history_of (alert_history (fst (send_alert ag client ad t_check t_record stamp))) c' =
     List.filter (fun t => Qltb (t_record - t) 3600) (history_of (alert_history ag) c')) /\
  NoDup (Dict.keys (alert_history (fst (send_alert ag client ad t_check t_record stamp)))) /\
  alert_type_field (snd (send_alert ag client ad t_check t_record stamp)) =
    Some (if existsb (String.eqb (ad_severity ad)) (Dict.keys (alert_history ag))
          then last (Dict.keys (alert_history ag)) (ad_severity ad) else ad_severity ad).
Proof.
  destruct (send_alert_success_parts ag client ad t_check t_record stamp Hs)
    as [Hadm [h3 [at' [Ec [Hag Hat]]]]].
  pose proof (is_rate_limited_admits ag (ad_severity ad) t_check Hadm) as Hlen.
  rewrite Hag, Hat. cbn [alert_cooldowns alert_history].
  set (c := ad_severity ad) in *.
  set (recent := List.filter (fun t => Qltb (t_check - t) 60) (history_of (alert_history ag) c)) in *.
  set (h2 := Dict.set (alert_history ag) c (recent ++ [t_record])%list) in *.
  assert (Hnd2 : NoDup (Dict.keys h2)) by (apply DictFacts.nodup_set; exact Hnd).
  assert (Hh3 : forall k, history_of h3 k = List.filter (fun t => Qltb (t_record - t) 3600) (history_of h2 k)).
  { intros k. rewrite <- (cleanup_history_history h2 t_record c k Hnd2), Ec. reflexivity. }
  assert (Hc : history_of h3 c = (List.filter (fun t => Qltb (t_record - t) 3600) recent ++ [t_record])%list).
  { rewrite Hh3. unfold h2. rewrite history_of_set_same, filter_app. simpl.
    replace (Qltb (t_record - t_record) 3600) with true; [reflexivity|].
    symmetry. apply Qltb_iff. lra. }
  split; [apply DictFacts.get_set_same|].
  split; [intros c' Hne; apply DictFacts.get_set_other; exact Hne|].
  split; [exact Hc|].
  split.
  { rewrite Hc, length_app. simpl.
    pose proof (filter_length_le (fun t => Qltb (t_record - t) 3600) recent). lia. }
  split.
  { intros c' Hne. rewrite Hh3. unfold h2, history_of. rewrite DictFacts.get_set_other by exact Hne. reflexivity. }
  split.
  { replace h3 with (fst (cleanup_history h2 t_record c)) by (rewrite Ec; reflexivity).
    apply cleanup_history_nodup. exact Hnd2. }
  f_equal. replace at' with (snd (cleanup_history h2 t_record c)) by (rewrite Ec; reflexivity).
  unfold cleanup_history. rewrite cleanup_loop_last. unfold h2. rewrite keys_set.
  destruct (existsb (String.eqb c) (Dict.keys (alert_history ag))); [reflexivity|].
  apply last_last.
Qed.

Lemma send_alert_success_witness :
  NoDup (Dict.keys (alert_history (fst mixed_2))) /\
  status (snd (send_alert (fst mixed_2) None (alert_for "high" flow) 1400 1400 "t2")) = "success" /\
  alert_type_field (snd (send_alert (fst mixed_2) None (alert_for "high" flow) 1400 1400 "t2")) =
    Some (if existsb (String.eqb "high") (Dict.keys (alert_history (fst mixed_2)))
          then last (Dict.keys (alert_history (fst mixed_2))) "high" else "high").
Proof.
  assert (Hnd : NoDup (Dict.keys (alert_history (fst mixed_2)))).
  { vm_compute. repeat constructor; simpl; intuition discriminate. }
  assert (Hs : status (snd (send_alert (fst mixed_2) None (alert_for "high" flow) 1400 1400 "t2")) = "success")
    by (vm_compute; reflexivity).
  split; [exact Hnd|]. split; [exact Hs|].
  exact (proj2 (proj2 (proj2 (proj2 (proj2 (proj2
           (send_alert_success (fst mixed_2) None (alert_for "high" flow) 1400 1400 "t2" Hnd Hs))))))).
Defined.

(* ================================================================== *)
(** * [main.py detect]: scoring the sample traffic *)

(** [python main.py detect] scores [generate_sample_network_traffic()]
    with [detect_anomaly].  For draws within the ranges, vectorizing the
    record cannot fail, so the call can fail only in the model's two
    artifacts.  If [scaler.transform] raises on the row of drawn numbers,
    [detect_anomaly] raises the same exception; if [decision_function]
    raises on the scaled row, so does [detect_anomaly].  Otherwise the
    result carries that score and the sample record, and a non-anomalous
    score leaves the alert agent unchanged. *)
Theorem sample_detection (pick : string -> draw -> pyval)
  (Hpick : forall k d, In (k, d) sample_spec -> drawn_from d (pick k d))
  scaler decision_function ag client t_check t_record stamp stamp_alert :
  match (match scaler with
         | Some transform => transform (map (fun kd => number_value (pick (fst kd) (snd kd))) sample_spec)
         | None => Ok (map (fun kd => number_value (pick (fst kd) (snd kd))) sample_spec)
         end) with
  | Raise e =>
      detect_anomaly scaler decision_function ag client t_check t_record stamp stamp_alert
        (generate_sample_network_traffic pick) = Raise e
  | Ok x =>
      match decision_function x with
      | Raise e =>
          detect_anomaly scaler decision_function ag client t_check t_record stamp stamp_alert
            (generate_sample_network_traffic pick) = Raise e
      | Ok score =>
          exists ag' r,
            detect_anomaly scaler decision_function ag client t_check t_record stamp stamp_alert
              (generate_sample_network_traffic pick) = Ok (ag', r) /\
            anomaly_score r = score /\ features r = generate_sample_network_traffic pick /\
            (is_anomaly r = false -> ag' = ag)
      end
  end.
Proof.
  unfold detect_anomaly, detect_anomaly_with, preprocess_data.
  rewrite (sample_vectorize pick Hpick). cbn beta iota.
  destruct (match scaler with
            | Some transform => transform (map (fun kd => number_value (pick (fst kd) (snd kd))) sample_spec)
            | None => Ok (map (fun kd => number_value (pick (fst kd) (snd kd))) sample_spec)
            end) as [x|e]; [|reflexivity].
  destruct (decision_function x) as [score|e]; [|reflexivity].
  destruct (score_verdict SEVERE_THRESHOLD MILD_THRESHOLD score) as [anom sev].
  destruct anom.
  - eexists. eexists. split; [reflexivity|]. split; [reflexivity|]. split; [reflexivity|]. discriminate.
  - eexists. eexists. split; [reflexivity|]. split; [reflexivity|]. split; [reflexivity|]. reflexivity.
Qed.

Lemma sample_detection_witness :
  (forall k d, In (k, d) sample_spec -> drawn_from d (pick_low k d)) /\
  (exists ag' r,
    detect_anomaly None detect_sample_df (init 5 300) None 0 0 "t0" "t0"
      (generate_sample_network_traffic pick_low) = Ok (ag', r) /\
    anomaly_score r = (1 # 10)%Q /\ features r = generate_sample_network_traffic pick_low /\
    (is_anomaly r = false -> ag' = init 5 300)) /\
  detect_anomaly (Some (fun _ => Raise ValueError)) detect_sample_df (init 5 300) None 0 0 "t0" "t0"
    (generate_sample_network_traffic pick_low) = Raise ValueError.
Proof.
  assert (H : forall k d, In (k, d) sample_spec -> drawn_from d (pick_low k d)).
  { intros k d Hin. pose proof (sample_spec_valid k d Hin) as Hv.
    destruct d as [lo hi|lo hi]; simpl in *.
    - apply andb_true_iff in Hv as [Hv _]. apply andb_true_iff in Hv as [_ Hv].
      apply Z.leb_le in Hv. lia.
    - apply Qle_bool_iff in Hv. split; [apply Qle_refl|exact Hv]. }
  split; [exact H|]. split.
  - exact (sample_detection pick_low H None detect_sample_df (init 5 300) None 0 0 "t0" "t0").
  - exact (sample_detection pick_low H (Some (fun _ => Raise ValueError)) detect_sample_df
             (init 5 300) None 0 0 "t0" "t0").
Defined.

(* ================================================================== *)
(** * [score_csv] on an uploaded text file *)

(** For an uploaded text file with a non-blank line, [score_csv] scores
    the columns [length] and [word_count] of [text_to_dataframe]'s frame:
    they are its numeric columns, and [preprocess_input] passes them to
    [score_batch] unchanged, as the lengths and word counts of the
    stripped non-blank lines. *)
Theorem text_upload_features (empty : column) (text : string)
  (Hne : col_text (text_to_dataframe text) <> []) :
  feature_columns (text_frame empty (text_to_dataframe text)) = Some ["length"; "word_count"] /\
  option_map preprocess_input
    (frame_select (text_frame empty (text_to_dataframe text)) ["length"; "word_count"]) =
  Some [("length", IntCol (map Z.of_nat (col_length (text_to_dataframe text))));
        ("word_count", IntCol (map Z.of_nat (col_word_count (text_to_dataframe text))))].
Proof.
  unfold text_frame. destruct (col_text (text_to_dataframe text)); [contradiction Hne; reflexivity|].
  split; reflexivity.
Qed.

Lemma text_upload_features_witness :
  col_text (text_to_dataframe ("GET /index" ++ String "010" (String "010" "  POST  /login now "))) <> [] /\
  feature_columns (text_frame (ObjectCol [])
    (text_to_dataframe ("GET /index" ++ String "010" (String "010" "  POST  /login now ")))) =
    Some ["length"; "word_count"] /\
  option_map preprocess_input
    (frame_select (text_frame (ObjectCol [])
       (text_to_dataframe ("GET /index" ++ String "010" (String "010" "  POST  /login now "))))
       ["length"; "word_count"]) =
  Some [("length", IntCol (map Z.of_nat (col_length
          (text_to_dataframe ("GET /index" ++ String "010" (String "010" "  POST  /login now "))))));
        ("word_count", IntCol (map Z.of_nat (col_word_count
          (text_to_dataframe ("GET /index" ++ String "010" (String "010" "  POST  /login now "))))))].
Proof.
  assert (Hne : col_text (text_to_dataframe ("GET /index" ++ String "010" (String "010" "  POST  /login now ")))
                <> []) by (vm_compute; discriminate).
  split; [exact Hne|].
  exact (text_upload_features (ObjectCol []) _ Hne).
Defined.

(** The two lines of that text: lengths 10 and 16, two and three words. *)
Example text_upload_columns :
  map Z.of_nat (col_length (text_to_dataframe ("GET /index" ++ String "010" (String "010" "  POST  /login now ")))) = [10; 16]%Z /\
  map Z.of_nat (col_word_count (text_to_dataframe ("GET /index" ++ String "010" (String "010" "  POST  /login now ")))) = [2; 3]%Z.
Proof. split; vm_compute; reflexivity. Qed.

(* ================================================================== *)
(** * [/api/recent] after an upload *)

Lemma length_clean_rows (rows : list Row) : forall i stamps, length (clean_rows i stamps rows) = length rows.
Proof. induction rows as [|r rest IH]; intros i stamps; simpl; [reflexivity|rewrite IH; reflexivity]. Qed.

Lemma firstn_clean_rows (n : nat) (rows : list Row) : forall i stamps,
  firstn n (clean_rows i stamps rows) = clean_rows i stamps (firstn n rows).
Proof.
  revert rows. induction n as [|n IH]; intros rows i stamps; [reflexivity|].
  destruct rows as [|r rest]; [reflexivity|]. simpl. rewrite IH. reflexivity.
Qed.

Lemma sorted_repeat {A} (R : A -> A -> Prop) (x : A) (n : nat) : R x x -> Sorted R (repeat x n).
Proof.
  intros Hx. induction n as [|n IH]; simpl; [constructor|].
  constructor; [exact IH|]. destruct n; constructor. exact Hx.
Qed.

(** Right after an upload of at least 10 records, [/api/recent] returns
    10 rows of that upload, cleaned as in [RESULTS], whose scores are at
    least those of every other record of the upload.  These are the
    records [score_samples] finds least abnormal, not the "recent
    anomalies" the endpoint's docstring describes. *)
Theorem recent_shows_highest_scores (merged sorted : list Row) (stamps : nat -> string)
  (results : list Row)
  (Hperm : Permutation merged sorted)
  (Hsorted : Sorted (fun a b => (row_score b <= row_score a)%Q) sorted)
  (H10 : 10 <= length merged) :
  exists shown rest,
    Permutation merged (shown ++ rest) /\ length shown = 10 /\
    get_recent (fst (score_csv_update merged sorted stamps results)) = clean_rows 0 stamps shown /\
    (forall a b, In a shown -> In b rest -> (row_score b <= row_score a)%Q).
Proof.
  assert (Hlen : length sorted = length merged) by (symmetry; apply Permutation_length; exact Hperm).
  exists (firstn 10 sorted), (skipn 10 sorted).
  split; [rewrite firstn_skipn; exact Hperm|].
  split; [rewrite length_firstn; lia|].
  split.
  - unfold get_recent, score_csv_update. cbn [fst].
    rewrite firstn_app, length_clean_rows, length_firstn.
    replace (10 - Nat.min 50 (length sorted)) with 0 by lia.
    rewrite firstn_O, app_nil_r, firstn_clean_rows, firstn_firstn. reflexivity.
  - apply strongly_sorted_app. rewrite firstn_skipn.
    apply Sorted_StronglySorted; [|exact Hsorted].
    intros x y z Hxy Hyz. lra.
Qed.

Lemma recent_shows_highest_scores_witness :
  Permutation ascending_rows (rev ascending_rows) /\
  Sorted (fun a b => (row_score b <= row_score a)%Q) (rev ascending_rows) /\
  10 <= length ascending_rows /\
  exists shown rest,
    Permutation ascending_rows (shown ++ rest) /\ length shown = 10 /\
    get_recent (fst (score_csv_update ascending_rows (rev ascending_rows)
                       (fun _ => "2026-10-17T12:00:00") [])) =
      clean_rows 0 (fun _ => "2026-10-17T12:00:00") shown /\
    (forall a b, In a shown -> In b rest -> (row_score b <= row_score a)%Q).
Proof.
  assert (Hp : Permutation ascending_rows (rev ascending_rows)) by apply Permutation_rev.
  assert (Hs : Sorted (fun a b => (row_score b <= row_score a)%Q) (rev ascending_rows)).
  { unfold ascending_rows. cbn [seq map rev List.app].
    repeat constructor; apply Qle_bool_iff; reflexivity. }
  assert (H10 : 10 <= length ascending_rows) by (vm_compute; lia).
  split; [exact Hp|]. split; [exact Hs|]. split; [exact H10|].
  exact (recent_shows_highest_scores _ _ _ _ Hp Hs H10).
Defined.
